(** * encore runtime/pubsub: subscriptions, delivery pipeline, shutdown

    A shallow embedding of [runtime/pubsub/subscription.go]: the
    outstanding-message tracker, the manager and its shutdown, the
    registration of a subscription and the callback it installs on the
    backend.  Go state is threaded explicitly; a Go panic is a result of
    its own, and the store a panicking call leaves behind is kept. *)

From stdpp Require Import base numbers list strings gmap.
From Stdlib Require Import ZArith.

Local Open Scope string_scope.
Local Open Scope Z_scope.

(** ** Go preliminaries *)

(** The outcome of a Go call: it returns a value, it panics with a
    message, or it ends the process ([os.Exit]). *)
Inductive result (A : Type) : Type :=
  | Ok (a : A)
  | Panicked (msg : string)
  | Exited (code : Z).
Arguments Ok {A} a.
Arguments Panicked {A} msg.
Arguments Exited {A} code.

(** A Go call on a store [S]: the store after the call is returned also
    when the call panics (what was written before the panic stays
    written). *)
Definition M (S A : Type) : Type := S -> S * result A.

Definition ret {S A} (a : A) : M S A := fun s => (s, Ok a).

Definition panic {S A} (msg : string) : M S A := fun s => (s, Panicked msg).

Definition exit {S A} (code : Z) : M S A := fun s => (s, Exited code).

Definition bind {S A B} (m : M S A) (k : A -> M S B) : M S B :=
  fun s =>
    match m s with
    | (s', Ok a) => k a s'
    | (s', Panicked msg) => (s', Panicked msg)
    | (s', Exited code) => (s', Exited code)
    end.

Definition get {S} : M S S := fun s => (s, Ok s).

Definition modify {S} (f : S -> S) : M S unit := fun s => (f s, Ok tt).

Notation "x <- m ;; k" := (bind m (fun x => k))
  (at level 100, m at next level, right associativity).
Notation "m ;; k" := (bind m (fun _ => k))
  (at level 100, right associativity).

(** [defer d] before [body]: [d] runs when [body] returns and when it
    panics, not when it ends the process.  A panic of [body] goes on
    after [d]; a panic of [d] replaces it. *)
Definition with_defer {S A} (d : M S unit) (body : M S A) : M S A :=
  fun s =>
    match body s with
    | (s1, Exited code) => (s1, Exited code)
    | (s1, r) =>
        match d s1 with
        | (s2, Ok _) => (s2, r)
        | (s2, Panicked msg) => (s2, Panicked msg)
        | (s2, Exited code) => (s2, Exited code)
        end
    end.

(** The call ended the process or panicked. *)
Definition fatal {A : Type} (r : result A) : Prop :=
  match r with Ok _ => False | _ => True end.

(** The runtime's message for a call through a nil pointer. *)
Definition nil_deref : string :=
  "runtime error: invalid memory address or nil pointer dereference".

(** [int64]: the integers of [-2^63, 2^63), addition wraps around. *)
Definition int64_min : Z := - 2 ^ 63.
Definition int64_max : Z := 2 ^ 63 - 1.

Definition int64_wrap (z : Z) : Z := (z + 2 ^ 63) mod 2 ^ 64 - 2 ^ 63.

(** [atomic.AddInt64(addr, delta)]: the new value. *)
Definition AddInt64 (v delta : Z) : Z := int64_wrap (v + delta).

(** A channel of [struct{}] nobody sends on: it is open or closed, and
    closing a closed channel panics. *)
Inductive chan : Type := ChanOpen | ChanClosed.

Definition is_closed (c : chan) : bool :=
  match c with ChanOpen => false | ChanClosed => true end.

(** ** The outstanding-message tracker *)

(** [closeOnce] is the done flag of the [sync.Once].  The mutex [mu] has
    no field here: a section run under it is one atomic step of the
    model, see [action] below. *)
Record outstandingMessageTracker : Type := mkTracker {
  active : Z;
  closeOnce : bool;
  done : chan;
  armed : bool
}.

Definition set_active (v : Z) (t : outstandingMessageTracker) :=
  mkTracker v (closeOnce t) (done t) (armed t).

Definition set_armed (b : bool) (t : outstandingMessageTracker) :=
  mkTracker (active t) (closeOnce t) (done t) b.

Definition newOutstandingMessageTracker : outstandingMessageTracker :=
  mkTracker 0 false ChanOpen false.

Definition Inc : M outstandingMessageTracker unit :=
  modify (fun t => set_active (AddInt64 (active t) 1) t).

(** [close(t.done)] *)
Definition close_done : M outstandingMessageTracker unit :=
  fun t =>
    match done t with
    | ChanOpen => (mkTracker (active t) (closeOnce t) ChanClosed (armed t), Ok tt)
    | ChanClosed => (t, Panicked "close of closed channel")
    end.

(** [t.closeOnce.Do(func() { close(t.done) })]: the function runs on the
    first call only, and the [Once] counts as done also when it
    panics. *)
Definition markDone : M outstandingMessageTracker unit :=
  fun t =>
    if closeOnce t then (t, Ok tt)
    else close_done (mkTracker (active t) true (done t) (armed t)).

(** [Dec], first part: the atomic subtraction and the check of its
    result. *)
Definition Dec_add : M outstandingMessageTracker Z :=
  fun t =>
    let val := AddInt64 (active t) (-1) in
    if val <? 0
    then (set_active val t, Panicked "outstandingMessageTracker: active < 0")
    else (set_active val t, Ok val).

(** [Dec], second part, run under the mutex when the result was zero. *)
Definition Dec_zero : M outstandingMessageTracker unit :=
  fun t => if armed t then markDone t else (t, Ok tt).

Definition Dec : M outstandingMessageTracker unit :=
  val <- Dec_add ;;
  if val =? 0 then Dec_zero else ret tt.

Definition ArmForShutdown : M outstandingMessageTracker unit :=
  modify (set_armed true) ;;
  t <- get ;;
  if active t =? 0 then markDone else ret tt.

Definition Done (t : outstandingMessageTracker) : chan := done t.

(** *** Calls one after the other *)

Inductive op : Type := OpInc | OpDec | OpArm.

Definition call (o : op) : M outstandingMessageTracker unit :=
  match o with
  | OpInc => Inc
  | OpDec => Dec
  | OpArm => ArmForShutdown
  end.

(** The calls of [ops] in order; the first panic ends the run. *)
Fixpoint run (ops : list op) : M outstandingMessageTracker unit :=
  match ops with
  | [] => ret tt
  | o :: ops' => call o ;; run ops'
  end.

(** *** Calls of several goroutines

    [Inc] is one atomic addition.  [Dec] is an atomic subtraction and,
    when that gave zero, a section under [mu] entered later: other calls
    can come in between.  [ArmForShutdown] runs under [mu] from start to
    end, and [armed] is written and read under [mu] only, so the call is
    one step taken at its load of [active].  A schedule lists the steps
    of all goroutines in the order they happen. *)
Inductive action : Type := AInc | ADecAdd | ADecZero | AArm.

(** [waiting]: the [Dec] calls whose subtraction gave zero and that have
    not yet run their section under [mu]. *)
Record pool : Type := mkPool {
  trk : outstandingMessageTracker;
  waiting : nat
}.

Definition init_pool : pool := mkPool newOutstandingMessageTracker 0.

(** One step; [None] when the schedule asks for the second part of a
    [Dec] and no call waits for it. *)
Definition step (a : action) (p : pool) : option (pool * result unit) :=
  match a with
  | AInc =>
      let '(t, r) := Inc (trk p) in Some (mkPool t (waiting p), r)
  | ADecAdd =>
      match Dec_add (trk p) with
      | (t, Ok val) =>
          Some (mkPool t (if val =? 0 then S (waiting p) else waiting p), Ok tt)
      | (t, Panicked msg) => Some (mkPool t (waiting p), Panicked msg)
      | (t, Exited code) => Some (mkPool t (waiting p), Exited code)
      end
  | ADecZero =>
      match waiting p with
      | O => None
      | S w => let '(t, r) := Dec_zero (trk p) in Some (mkPool t w, r)
      end
  | AArm =>
      let '(t, r) := ArmForShutdown (trk p) in Some (mkPool t (waiting p), r)
  end.

(** 1 when [done] is open in [t] and closed in [t'], else 0. *)
Definition closed_by (t t' : outstandingMessageTracker) : nat :=
  if negb (is_closed (done t)) && is_closed (done t') then 1%nat else 0%nat.

(** The steps of a schedule in order, up to the first panic (a panic
    that nobody recovers ends the process).  The number returned counts
    the steps that closed [done]. *)
Fixpoint exec (sched : list action) (p : pool)
  : option (pool * result unit * nat) :=
  match sched with
  | [] => Some (p, Ok tt, 0%nat)
  | a :: rest =>
      match step a p with
      | None => None
      | Some (p', Panicked msg) =>
          Some (p', Panicked msg, closed_by (trk p) (trk p'))
      | Some (p', Exited code) =>
          Some (p', Exited code, closed_by (trk p) (trk p'))
      | Some (p', Ok _) =>
          match exec rest p' with
          | None => None
          | Some (q, r, n) => Some (q, r, (closed_by (trk p) (trk p') + n)%nat)
          end
      end
  end.

(** A pool some schedule leads to from a fresh tracker, without a
    panic. *)
Definition reachable (q : pool) : Prop :=
  exists sched n, exec sched init_pool = Some (q, Ok tt, n).

Definition action_eqb (a b : action) : bool :=
  match a, b with
  | AInc, AInc | ADecAdd, ADecAdd | ADecZero, ADecZero | AArm, AArm => true
  | _, _ => false
  end.

(** How often [a] occurs in a schedule. *)
Fixpoint count_action (a : action) (sched : list action) : nat :=
  match sched with
  | [] => 0%nat
  | b :: rest =>
      if action_eqb a b then S (count_action a rest) else count_action a rest
  end.

(** No [Dec] without an [Inc] before it: in every prefix of the
    schedule the [Dec] calls are at most as many as the [Inc] calls. *)
Definition matched (sched : list action) : Prop :=
  forall k : nat,
    (count_action ADecAdd (take k sched) <= count_action AInc (take k sched))%nat.

(** The schedule of the calls of [ops] made one after the other on [t]. *)
Fixpoint sched_of (ops : list op) (t : outstandingMessageTracker) : list action :=
  match ops with
  | [] => []
  | OpInc :: ops' => AInc :: sched_of ops' (fst (Inc t))
  | OpDec :: ops' =>
      match Dec_add t with
      | (t1, Ok val) =>
          if val =? 0
          then ADecAdd :: ADecZero :: sched_of ops' (fst (Dec_zero t1))
          else ADecAdd :: sched_of ops' t1
      | (_, _) => [ADecAdd]
      end
  | OpArm :: ops' => AArm :: sched_of ops' (fst (ArmForShutdown t))
  end.

(** *** Invariants of the tracker *)

(** The message of the panic of [Dec]. *)
Definition neg_msg : string := "outstandingMessageTracker: active < 0".

(** What every tracker met in a run satisfies: the [Once] is done
    exactly when the channel is closed, and the channel is closed only
    after arming. *)
Definition wf (t : outstandingMessageTracker) : Prop :=
  closeOnce t = is_closed (done t) /\
  (is_closed (done t) = true -> armed t = true).

(** The state of a pool in which every [Dec] so far had its [Inc]: the
    counter is not negative and, once armed, the channel stays open only
    while a delivery is outstanding or a [Dec] has still to run its
    section under [mu]. *)
Definition live (p : pool) : Prop :=
  wf (trk p) /\ 0 <= active (trk p) /\
  (armed (trk p) = true -> is_closed (done (trk p)) = false ->
   0 < active (trk p) \/ (0 < waiting p)%nat).

(** What a step adds to the counter. *)
Definition delta (a : action) : Z :=
  match a with AInc => 1 | ADecAdd => -1 | _ => 0 end.

(** A tracker some schedule of at most [int64_max] steps leads to from
    a fresh one, without a panic. *)
Definition tracked (t : outstandingMessageTracker) : Prop :=
  exists (sched : list action) (w n : nat),
    Z.of_nat (length sched) <= int64_max /\
    exec sched init_pool = Some (mkPool t w, Ok tt, n).

(** ** Errors, configuration and requests

    These types are declared in other packages ([errs], [config],
    [model]); the fields below are the ones [subscription.go] reads or
    writes. *)

Inductive ErrCode : Type := Unknown | Internal | OtherCode (name : string).

#[local] Set Warnings "-register-all".

(** A Go [error]: one built with [errs.B()] (code, message, cause), or
    any other. *)
Inductive error : Type :=
  | ErrsError (code : ErrCode) (msg : string) (cause : option error)
  | PlainError (text : string).

(** [config.PubsubSubscription] *)
Record PubsubSubscription : Type := mkPubsubSubscription {
  sub_EncoreName : string
}.

(** [config.StaticPubsubSubscription] *)
Record StaticPubsubSubscription : Type := mkStaticPubsubSubscription {
  Service : string;
  TraceIdx : Z
}.

(** The type of [topic.topicCfg]. *)
Record PubsubTopic : Type := mkPubsubTopic {
  EncoreName : string;
  Subscriptions : gmap string PubsubSubscription
}.

(** The values of [cfg.Static.PubsubTopics]. *)
Record StaticPubsubTopic : Type := mkStaticPubsubTopic {
  static_Subscriptions : gmap string StaticPubsubSubscription
}.

Record Static : Type := mkStatic {
  Testing : bool;
  TestService : string;
  PubsubTopics : gmap string StaticPubsubTopic
}.

(** [config.Config]; [Tracing] is what [trace.Enabled(cfg)] returns. *)
Record Config : Type := mkConfig {
  static : Static;
  Tracing : bool
}.

(** [time.Duration]: nanoseconds. *)
Definition Second : Z := 1000000000.
Definition Minute : Z := 60 * Second.

Record RetryPolicy : Type := mkRetryPolicy {
  MinBackoff : Z;
  MaxBackoff : Z;
  MaxRetries : Z
}.

(** [model.PubSubMsgData] *)
Record PubSubMsgData : Type := mkPubSubMsgData {
  md_Topic : string;
  md_Subscription : string;
  MessageID : string;
  Attempt : Z;
  Published : Z
}.

Inductive RequestType : Type := RPCCall | AuthHandler | PubSubMessage.

(** [model.Request] as the callback fills it in. *)
Record Request : Type := mkRequest {
  req_Type : RequestType;
  req_Service : string;
  MsgData : PubSubMsgData;
  Inputs : list (list Byte.byte);
  DefLoc : Z;
  Traced : bool;
  UID : string;
  AuthData : option string;
  ParentID : Z
}.

(** The fields [NewSubscription] puts on its logger. *)
Record Logger : Type := mkLogger {
  log_service : string;
  log_topic : string;
  log_subscription : string
}.

(** Modelled from the spec: [utils.WithDefaultValue] is not in the
    source.  "Fills in default retry-policy bounds when unset": a
    duration left unset is the zero duration, and it is replaced by the
    default. *)
Definition WithDefaultValue (value default : Z) : Z :=
  if value =? 0 then default else value.

(** ** The manager *)

(** A pointer to a collaborator this model has no state for. *)
Inductive ref : Type := Nil | Ref.

(** The state of [mgr.rt] the callback reads: [currTrace] is
    [mgr.rt.Current().Trace != nil]. *)
Record RequestTracker : Type := mkRequestTracker {
  currTrace : bool
}.

(** [ctxDone]: the context [ctx] has been cancelled.  [outstanding] is a
    pointer: [None] is nil.  The other fields of the Go struct ([ts],
    [gcp], [nsq], [publishCounter]) are not used in this file;
    what is written to [rootLogger] goes to the trace of the store. *)
Record Manager : Type := mkManager {
  ctxDone : bool;
  cfg : Config;
  rt : RequestTracker;
  outstanding : option outstandingMessageTracker
}.

(** The context is fresh, and no value is given to [outstanding].  The
    arguments [ts], [server] and [rootLogger], and the [gcp] and [nsq]
    managers built here, have no state in this model. *)
Definition NewManager (cfg : Config) (rt : RequestTracker) : Manager :=
  {| ctxDone := false;
     cfg := cfg;
     rt := rt;
     outstanding := None |}.

Section Pubsub.

(** The payload type of the topic, and [utils.UnmarshalMessage[T]],
    which is not in the source: from attributes and data, a message or
    an error. *)
Context {T : Type}.
Variable UnmarshalMessage :
  gmap string string -> list Byte.byte -> T + error.

(** What a call of the user's handler does: it returns nil or an error,
    it panics with a value, kept as [%s] prints it, or it panics with
    nil ([panic(nil)]; before Go 1.21 [recover] gives nil for it). *)
Inductive HandlerOutcome : Type :=
  | Returns (err : option error)
  | Panics (payload : string)
  | PanicsNil.

Record SubscriptionConfig : Type := mkSubscriptionConfig {
  Handler : T -> HandlerOutcome;
  cfg_RetryPolicy : option RetryPolicy
}.

(** The calls to collaborators, in the order they are made. *)
Inductive Event : Type :=
  | EvBeginOperation
  | EvFinishOperation
  | EvLogErr (log : Logger) (err : error) (msg_id : string)
      (delivery_attempt : Z) (text : string)
  | EvLogInfo (log : Logger) (text : string)
  | EvLogFatal (text : string)
  | EvSubscribe (log : Logger) (policy : RetryPolicy) (sub : PubsubSubscription)
  | EvBeginRequest (req : Request)
  | EvTraceBeginRequest (req : Request)
  | EvHandler (msg : T)
  | EvTraceFinishRequest (req : Request) (err : option error)
  | EvFinishRequest.

(** The store: the manager of the process and the calls made so far. *)
Record World : Type := mkWorld {
  manager : Manager;
  events : list Event
}.

Definition emit (e : Event) : M World unit :=
  modify (fun w => mkWorld (manager w) (events w ++ [e])).

(** A method of the tracker called through [mgr.outstanding]. *)
Definition on_outstanding {A} (m : M outstandingMessageTracker A) : M World A :=
  fun w =>
    match outstanding (manager w) with
    | None => (w, Panicked nil_deref)
    | Some t =>
        let '(t', r) := m t in
        (mkWorld (mkManager (ctxDone (manager w)) (cfg (manager w))
                    (rt (manager w)) (Some t'))
                 (events w), r)
    end.

(** *** Shutdown *)

(** [force.Done()] is a channel as well.  The cases of the [select] that
    can proceed: none, and the goroutine blocks; several, and it takes
    any of them. *)
Inductive wake : Type := ByDone | ByForce.

Definition select_ready (d force : chan) : list wake :=
  (if is_closed d then [ByDone] else []) ++
  (if is_closed force then [ByForce] else []).

Definition cancelCtx : M World unit :=
  modify (fun w =>
    mkWorld (mkManager true (cfg (manager w)) (rt (manager w))
               (outstanding (manager w)))
            (events w)).

(** [Shutdown] up to its [select]: the cases ready when it gets there. *)
Definition Shutdown (force : chan) : M World (list wake) :=
  cancelCtx ;;
  on_outstanding ArmForShutdown ;;
  d <- on_outstanding (fun t => (t, Ok (Done t))) ;;
  ret (select_ready d force).

(** *** Registration *)

(** [Topic[T]]: the struct is declared in another file; [NewSubscription]
    reads these three pointers.  [mgr], when not nil, points to the
    manager of the store. *)
Record Topic : Type := mkTopic {
  topicCfg : option PubsubTopic;
  topic : ref;
  mgr : ref
}.

Record Subscription : Type := mkSubscription {
  sub_mgr : ref
}.

Definition is_nil (r : ref) : bool :=
  match r with Nil => true | Ref => false end.

Definition unknown_subscription (topic_name name : string) : string :=
  "unregistered/unknown subscription on topic " ++ topic_name ++ ": " ++ name.

(** [rootLogger.Fatal().Msgf(...)]: the line is written and the process
    exits with status 1. *)
Definition Fatal {A} (text : string) : M World A :=
  emit (EvLogFatal text) ;; exit 1.

(** [PubsubTopics] maps to pointers: for a topic it does not hold the
    lookup gives nil, and reading [Subscriptions] through it panics. *)
Definition getSubscriptionConfig (t : Topic) (name : string)
  : M World (PubsubSubscription * StaticPubsubSubscription) :=
  w <- get ;;
  let st := static (cfg (manager w)) in
  if Testing st then
    ret (mkPubsubSubscription name, mkStaticPubsubSubscription (TestService st) 0)
  else
    match topicCfg t with
    | None => panic nil_deref
    | Some tc =>
        match Subscriptions tc !! name with
        | None => Fatal (unknown_subscription (EncoreName tc) name)
        | Some subscription =>
            match PubsubTopics st !! EncoreName tc with
            | None => panic nil_deref
            | Some stopic =>
                match static_Subscriptions stopic !! name with
                | None => Fatal (unknown_subscription (EncoreName tc) name)
                | Some staticCfg => ret (subscription, staticCfg)
                end
            end
        end
    end.

(** The lines of [NewSubscription] on the retry policy: the policy
    handed to [Subscribe], or the message of the panic of a negative
    bound. *)
Definition effective_policy (p : option RetryPolicy) : string + RetryPolicy :=
  let policy :=
    match p with
    | None => mkRetryPolicy 0 0 100
    | Some policy => policy
    end in
  if MinBackoff policy <? 0 then inl "MinRetryDelay cannot be negative"
  else if MaxBackoff policy <? 0 then inl "MaxRetryDelay cannot be negative"
  else inr (mkRetryPolicy
              (WithDefaultValue (MinBackoff policy) (10 * Second))
              (WithDefaultValue (MaxBackoff policy) (10 * Minute))
              (MaxRetries policy)).

(** [NewSubscription] up to and including the call of [Subscribe] and
    the line it logs; the callback it hands to [Subscribe] is
    [deliver] below. *)
Definition NewSubscription (t : Topic) (name : string)
    (subscriptionCfg : SubscriptionConfig) : M World Subscription :=
  match topicCfg t with
  | Some tc =>
      if is_nil (topic t) || is_nil (mgr t)
      then panic "pubsub topic was not created using pubsub.NewTopic"
      else
        match effective_policy (cfg_RetryPolicy subscriptionCfg) with
        | inl msg => panic msg
        | inr policy =>
            c <- getSubscriptionConfig t name ;;
            let '(subscription, staticCfg) := c in
            let log := mkLogger (Service staticCfg) (EncoreName tc) name in
            emit (EvSubscribe log policy subscription) ;;
            w <- get ;;
            (if negb (Testing (static (cfg (manager w))))
             then emit (EvLogInfo log "registered subscription")
             else ret tt) ;;
            ret (mkSubscription (mgr t))
        end
  | None => panic "pubsub topic was not created using pubsub.NewTopic"
  end.

(** *** The callback given to the backend *)

(** The handler is called. *)
Definition call_handler (subscriptionCfg : SubscriptionConfig) (msg : T)
  : M World HandlerOutcome :=
  emit (EvHandler msg) ;;
  ret (Handler subscriptionCfg msg).

(** What [recover()] gives in the deferred function: nil after a
    return, the value of the panic after a panic, which is nil as well
    after [panic(nil)]. *)
Definition recover (out : HandlerOutcome) : option string :=
  match out with
  | Returns _ => None
  | Panics payload => Some payload
  | PanicsNil => None
  end.

(** The result [err] is set by the [return] of the handler's value; a
    panic leaves it nil.  The deferred function stops the panic and,
    when [recover()] is not nil, sets [err] to an error of code
    [Internal]. *)
Definition panicCatchWrapper (subscriptionCfg : SubscriptionConfig) (msg : T)
  : M World (option error) :=
  out <- call_handler subscriptionCfg msg ;;
  let err :=
    match out with
    | Returns err => err
    | Panics _ | PanicsNil => None
    end in
  match recover out with
  | Some err2 =>
      ret (Some (ErrsError Internal ("subscriber panicked: " ++ err2) None))
  | None => ret err
  end.

(** The variables the callback closes over. *)
Record Closure : Type := mkClosure {
  cl_subscriptionCfg : SubscriptionConfig;
  cl_topic : PubsubTopic;
  cl_name : string;
  cl_subscription : PubsubSubscription;
  cl_staticCfg : StaticPubsubSubscription
}.

Definition cl_log (c : Closure) : Logger :=
  mkLogger (Service (cl_staticCfg c)) (EncoreName (cl_topic c)) (cl_name c).

Definition deliver_body (c : Closure) (msgID : string) (publishTime : Z)
    (deliveryAttempt : Z) (attrs : gmap string string) (data : list Byte.byte)
  : M World (option error) :=
  match UnmarshalMessage attrs data with
  | inr err =>
      emit (EvLogErr (cl_log c) err msgID deliveryAttempt
              "failed to unmarshal message") ;;
      ret (Some (ErrsError Internal "failed to unmarshal message" (Some err)))
  | inl msg =>
      w <- get ;;
      let req :=
        {| req_Type := PubSubMessage;
           req_Service := Service (cl_staticCfg c);
           MsgData :=
             {| md_Topic := EncoreName (cl_topic c);
                md_Subscription := sub_EncoreName (cl_subscription c);
                MessageID := msgID;
                Attempt := deliveryAttempt;
                Published := publishTime |};
           Inputs := [data];
           DefLoc := TraceIdx (cl_staticCfg c);
           Traced := Tracing (cfg (manager w));
           UID := "";
           AuthData := None;
           ParentID := 0 |} in
      emit (EvBeginRequest req) ;;
      let traced := currTrace (rt (manager w)) in
      (if traced then emit (EvTraceBeginRequest req) else ret tt) ;;
      err <- panicCatchWrapper (cl_subscriptionCfg c) msg ;;
      (if traced then emit (EvTraceFinishRequest req err) else ret tt) ;;
      emit EvFinishRequest ;;
      ret err
  end.

Definition deliver (c : Closure) (msgID : string) (publishTime : Z)
    (deliveryAttempt : Z) (attrs : gmap string string) (data : list Byte.byte)
  : M World (option error) :=
  on_outstanding Inc ;;
  with_defer (on_outstanding Dec)
    (w <- get ;;
     if negb (Testing (static (cfg (manager w))))
     then
       emit EvBeginOperation ;;
       with_defer (emit EvFinishOperation)
         (deliver_body c msgID publishTime deliveryAttempt attrs data)
     else deliver_body c msgID publishTime deliveryAttempt attrs data).

(** *** Predicates of the properties below *)

(** The events a delivery adds besides those of the request itself. *)
Definition op_begin (w : World) : list (Event) :=
  if Testing (static (cfg (manager w))) then [] else [EvBeginOperation].

Definition op_finish (w : World) : list (Event) :=
  if Testing (static (cfg (manager w))) then [] else [EvFinishOperation].

(** The topic went through [NewTopic]: the three pointers
    [NewSubscription] tests are set. *)
Definition created_by_NewTopic (t : Topic) : Prop :=
  topicCfg t <> None /\ topic t = Ref /\ mgr t = Ref.

(** A retry policy was given and one of its bounds is negative. *)
Definition negative_bound (scfg : SubscriptionConfig) : Prop :=
  exists p, cfg_RetryPolicy scfg = Some p /\ (MinBackoff p < 0 \/ MaxBackoff p < 0).

(** The name is declared for the topic in the configuration of the
    process, in its runtime part and in its static part. *)
Definition declared (w : World) (t : Topic) (name : string) : Prop :=
  exists tc sub stopic ssub,
    topicCfg t = Some tc /\
    Subscriptions tc !! name = Some sub /\
    PubsubTopics (static (cfg (manager w))) !! EncoreName tc = Some stopic /\
    static_Subscriptions stopic !! name = Some ssub.

(** The policy given, with the defaults for the bounds left at zero. *)
Definition with_defaults (p : RetryPolicy) : RetryPolicy :=
  mkRetryPolicy (if MinBackoff p =? 0 then 10 * Second else MinBackoff p)
                (if MaxBackoff p =? 0 then 10 * Minute else MaxBackoff p)
                (MaxRetries p).

End Pubsub.

Arguments HandlerOutcome : clear implicits.
Arguments SubscriptionConfig : clear implicits.
Arguments Event : clear implicits.
Arguments World : clear implicits.
Arguments Closure : clear implicits.

(** ** The backoff policy *)

Module Backoff.

(** Modelled from the spec: the function computing the delay before a
    redelivery lives in the backends, which are not in the source.
    "Deterministic doubling with a floor and ceiling:
    delay = clamp(minBackoff * 2^(attempt-1), minBackoff, maxBackoff)". *)
Definition clamp (x lo hi : Z) : Z := Z.max lo (Z.min x hi).

Definition nextDelay (p : RetryPolicy) (attempt : Z) : Z :=
  clamp (MinBackoff p * 2 ^ (attempt - 1)) (MinBackoff p) (MaxBackoff p).

End Backoff.

(** ** Sample data for the examples *)

Definition sample_closure (h : string -> HandlerOutcome) : Closure string :=
  mkClosure (mkSubscriptionConfig h None)
    (mkPubsubTopic "orders" ∅) "mailer"
    (mkPubsubSubscription "mailer") (mkStaticPubsubSubscription "shop" 7).

Definition sample_world (testing : bool) (o : option outstandingMessageTracker)
  : World string :=
  mkWorld (mkManager false (mkConfig (mkStatic testing "shop" ∅) false)
             (mkRequestTracker true) o) [].

Definition sample_topic : Topic :=
  mkTopic (Some (mkPubsubTopic "orders" {[ "mailer" := mkPubsubSubscription "mailer" ]}))
    Ref Ref.

Definition sample_config (testing : bool) : Config :=
  mkConfig
    (mkStatic testing "shop"
       {[ "orders" :=
            mkStaticPubsubTopic {[ "mailer" := mkStaticPubsubSubscription "shop" 7 ]} ]})
    false.

Definition registering_world (testing : bool) : World string :=
  mkWorld (NewManager (sample_config testing) (mkRequestTracker true)) [].

(** * Properties *)

(** ** The tracker *)

Lemma int64_wrap_id (z : Z) :
  int64_min <= z <= int64_max -> int64_wrap z = z.
Proof.
  unfold int64_min, int64_max, int64_wrap. intros Hz.
  rewrite Z.mod_small; lia.
Qed.

Lemma wf_new : wf newOutstandingMessageTracker.
Proof. split; [reflexivity | discriminate]. Qed.

Lemma wf_set_active (v : Z) (t : outstandingMessageTracker) :
  wf t -> wf (set_active v t).
Proof. intros [H1 H2]. split; assumption. Qed.

(** Case analysis on a tracker and on its counter being zero. *)
Ltac tracker_cases t :=
  let a := fresh "a" in
  let o := fresh "o" in
  let d := fresh "d" in
  let ar := fresh "ar" in
  destruct t as [a o d ar];
  unfold wf, ArmForShutdown, Dec_zero, markDone, close_done, bind, modify, get,
    ret, set_armed, set_active in *;
  simpl in *;
  try destruct (Z.eqb_spec a 0);
  destruct d, o, ar; simpl in *.

Ltac tracker_done :=
  eexists; split; [reflexivity |]; simpl;
  repeat split; simpl; intros; try reflexivity; try congruence; try lia.

Lemma markDone_wf (t : outstandingMessageTracker) :
  wf t -> armed t = true ->
  exists t', markDone t = (t', Ok tt) /\ wf t' /\ done t' = ChanClosed /\
             active t' = active t /\ armed t' = true /\
             (is_closed (done t) = true -> t' = t).
Proof.
  intros [H1 H2] Ha. tracker_cases t; try discriminate; tracker_done.
Qed.

Lemma ArmForShutdown_wf (t : outstandingMessageTracker) :
  wf t ->
  exists t', ArmForShutdown t = (t', Ok tt) /\ wf t' /\ armed t' = true /\
             active t' = active t /\
             (active t = 0 -> done t' = ChanClosed) /\
             (active t <> 0 -> done t' = done t) /\
             (is_closed (done t) = true -> t' = t).
Proof.
  intros [H1 H2]. tracker_cases t; try discriminate;
    try (specialize (H2 eq_refl); discriminate); tracker_done.
Qed.

Lemma Dec_zero_wf (t : outstandingMessageTracker) :
  wf t ->
  exists t', Dec_zero t = (t', Ok tt) /\ wf t' /\ active t' = active t /\
             armed t' = armed t /\
             (armed t = true -> done t' = ChanClosed) /\
             (armed t = false -> t' = t).
Proof.
  intros [H1 H2]. tracker_cases t; try discriminate;
    try (specialize (H2 eq_refl); discriminate); tracker_done.
Qed.

Lemma Dec_add_cases (t : outstandingMessageTracker) :
  let val := AddInt64 (active t) (-1) in
  (val < 0 /\ Dec_add t = (set_active val t, Panicked neg_msg)) \/
  (0 <= val /\ Dec_add t = (set_active val t, Ok val)).
Proof.
  simpl. unfold Dec_add.
  destruct (Z.ltb_spec (AddInt64 (active t) (-1)) 0); [left | right]; auto.
Qed.

(** A step keeps [wf], never reopens the channel, and panics only on a
    negative counter. *)
Lemma step_wf (a : action) (p p' : pool) (r : result unit) :
  wf (trk p) -> step a p = Some (p', r) ->
  wf (trk p') /\
  (is_closed (done (trk p)) = true -> is_closed (done (trk p')) = true) /\
  (r = Ok tt \/ r = Panicked neg_msg).
Proof.
  intros Hwf Hs. destruct a; simpl in Hs.
  - injection Hs as <- <-. simpl. split; [apply wf_set_active, Hwf | auto].
  - destruct (Dec_add_cases (trk p)) as [[_ E] | [_ E]]; rewrite E in Hs;
      injection Hs as <- <-; simpl; (split; [apply wf_set_active, Hwf | auto]).
  - destruct (waiting p) as [| w]; [discriminate |].
    destruct (Dec_zero_wf _ Hwf) as (t' & E & W & _ & Ar & Cl & Same).
    rewrite E in Hs. injection Hs as <- <-. simpl. split; [exact W |].
    split; [| auto]. intros Hc. destruct (armed (trk p)) eqn:Ha.
    + rewrite (Cl eq_refl). reflexivity.
    + rewrite (Same eq_refl). exact Hc.
  - destruct (ArmForShutdown_wf _ Hwf) as (t' & E & W & _ & _ & _ & _ & Same).
    rewrite E in Hs. injection Hs as <- <-. simpl. split; [exact W |].
    split; [| auto]. intros Hc. rewrite (Same Hc). exact Hc.
Qed.

Lemma closed_by_trans (t1 t2 t3 : outstandingMessageTracker) :
  (is_closed (done t1) = true -> is_closed (done t2) = true) ->
  (is_closed (done t2) = true -> is_closed (done t3) = true) ->
  (closed_by t1 t2 + closed_by t2 t3)%nat = closed_by t1 t3.
Proof.
  unfold closed_by.
  destruct (is_closed (done t1)), (is_closed (done t2)), (is_closed (done t3));
    simpl; intros H12 H23; auto;
    try (specialize (H12 eq_refl); discriminate);
    try (specialize (H23 eq_refl); discriminate).
Qed.

Lemma closed_by_le (t t' : outstandingMessageTracker) : (closed_by t t' <= 1)%nat.
Proof. unfold closed_by. destruct (_ && _); lia. Qed.

(** Along a schedule: [wf] holds at the end, the count of closing steps
    is the difference between start and end, and the only panic is the
    one of a negative counter. *)
Lemma exec_wf (sched : list action) :
  forall (p q : pool) (r : result unit) (n : nat),
    wf (trk p) -> exec sched p = Some (q, r, n) ->
    wf (trk q) /\
    (is_closed (done (trk p)) = true -> is_closed (done (trk q)) = true) /\
    n = closed_by (trk p) (trk q) /\
    (r = Ok tt \/ r = Panicked neg_msg).
Proof.
  induction sched as [| a rest IH]; intros p q r n Hwf He; simpl in He.
  - injection He as <- <- <-. repeat split; try apply Hwf; auto.
    unfold closed_by. destruct (is_closed (done (trk p))); reflexivity.
  - destruct (step a p) as [[p' r'] |] eqn:Hs; [| discriminate].
    destruct (step_wf _ _ _ _ Hwf Hs) as (W & Mono & Hr).
    destruct r' as [[] | msg | code].
    + destruct (exec rest p') as [[[q' r''] n'] |] eqn:He'; [| discriminate].
      injection He as <- <- <-.
      destruct (IH _ _ _ _ W He') as (W' & Mono' & Hn & Hr').
      repeat split; try apply W'; auto.
      rewrite Hn. apply closed_by_trans; assumption.
    + injection He as <- <- <-. repeat split; try apply W; auto.
    + injection He as <- <- <-. repeat split; try apply W; auto.
Qed.

(** A step that returns moves a counter of [0, int64_max) by at most one
    and leaves it non-negative. *)
Lemma step_active (a : action) (p p' : pool) :
  0 <= active (trk p) < int64_max ->
  step a p = Some (p', Ok tt) ->
  0 <= active (trk p') <= active (trk p) + 1.
Proof.
  intros Hr Hs. destruct a; simpl in Hs.
  - injection Hs as <-. simpl. unfold AddInt64.
    rewrite int64_wrap_id; unfold int64_min, int64_max in *; lia.
  - destruct (Dec_add_cases (trk p)) as [[_ E] | [Hv E]]; rewrite E in Hs;
      [discriminate |].
    injection Hs as <-. simpl. split; [exact Hv |].
    unfold AddInt64. rewrite int64_wrap_id; unfold int64_min, int64_max in *; lia.
  - destruct (waiting p); [discriminate |].
    destruct (trk p) as [v o d ar]; unfold Dec_zero, markDone, close_done in Hs;
      simpl in *.
    destruct ar, o, d; simpl in Hs; try discriminate;
      injection Hs as <-; simpl; lia.
  - destruct (trk p) as [v o d ar];
      unfold ArmForShutdown, markDone, close_done, bind, modify, get, ret in Hs;
      simpl in *.
    destruct (v =? 0), o, d; simpl in Hs; try discriminate;
      injection Hs as <-; simpl; lia.
Qed.

Lemma exec_nonneg (sched : list action) :
  forall (p q : pool) (n : nat),
    0 <= active (trk p) ->
    active (trk p) + Z.of_nat (length sched) <= int64_max ->
    exec sched p = Some (q, Ok tt, n) ->
    0 <= active (trk q).
Proof.
  induction sched as [| a rest IH]; intros p q n H0 Hlen He; simpl in He.
  - injection He as <- _. exact H0.
  - rewrite length_cons, Nat2Z.inj_succ in Hlen.
    destruct (step a p) as [[p' r'] |] eqn:Hs; [| discriminate].
    destruct r' as [[] | msg | code]; try discriminate.
    destruct (exec rest p') as [[[q' r''] n'] |] eqn:He'; [| discriminate].
    injection He as <- -> _.
    assert (Hb : 0 <= active (trk p') <= active (trk p) + 1)
      by (apply (step_active a); [lia | exact Hs]).
    apply (IH p' q' n'); [lia | lia | exact He'].
Qed.

Lemma live_init : live init_pool.
Proof. split; [apply wf_new |]. split; [simpl; lia | discriminate]. Qed.

Lemma step_live (a : action) (p p' : pool) (r : result unit) :
  live p -> active (trk p) < int64_max ->
  (a = ADecAdd -> 1 <= active (trk p)) ->
  step a p = Some (p', r) ->
  r = Ok tt /\ live p' /\ active (trk p') = active (trk p) + delta a /\
  (armed (trk p) = true \/ a = AArm -> armed (trk p') = true).
Proof.
  intros (Hwf & H0 & Hfire) Hmax Hdec Hs.
  destruct p as [t w]; simpl in *. destruct a; simpl in Hs.
  - injection Hs as <- <-. unfold live; simpl. unfold AddInt64.
    rewrite int64_wrap_id by (unfold int64_min, int64_max in *; lia).
    split; [reflexivity |]. split.
    + split; [apply wf_set_active, Hwf |]. split; [lia |]. intros _ _. left; lia.
    + split; [reflexivity |]. intros [H | H]; [exact H | discriminate].
  - specialize (Hdec eq_refl).
    assert (Ev : AddInt64 (active t) (-1) = active t - 1).
    { unfold AddInt64. rewrite int64_wrap_id;
        unfold int64_min, int64_max in *; lia. }
    destruct (Dec_add_cases t) as [[Hv E] | [Hv E]]; rewrite Ev in *; [lia |].
    rewrite E in Hs. injection Hs as <- <-. unfold live; simpl.
    split; [reflexivity |]. split.
    + split; [apply wf_set_active, Hwf |]. split; [lia |]. intros Ha Hc.
      destruct (Z.eqb_spec (active t - 1) 0); [right; lia | left; lia].
    + split; [lia |]. intros [H | H]; [exact H | discriminate].
  - destruct w as [| w]; [discriminate |].
    destruct (Dec_zero_wf _ Hwf) as (t' & E & W & Ac & Ar & Cl & Same).
    rewrite E in Hs. injection Hs as <- <-. unfold live; simpl.
    split; [reflexivity |]. split.
    + split; [exact W |]. split; [lia |]. rewrite Ar. intros Ha Hc.
      rewrite (Cl Ha) in Hc. discriminate.
    + split; [lia |]. rewrite Ar. intros [H | H]; [exact H | discriminate].
  - destruct (ArmForShutdown_wf _ Hwf) as (t' & E & W & Ar & Ac & Cl & Op & _).
    rewrite E in Hs. injection Hs as <- <-. unfold live; simpl.
    split; [reflexivity |]. split.
    + split; [exact W |]. split; [lia |]. intros _ Hc.
      destruct (Z.eq_dec (active t) 0) as [Hz | Hz].
      * rewrite (Cl Hz) in Hc. discriminate.
      * left. lia.
    + split; [lia |]. intros _. exact Ar.
Qed.

Lemma exec_matched (sched : list action) :
  forall (p q : pool) (r : result unit) (n : nat),
    live p ->
    active (trk p) + Z.of_nat (length sched) <= int64_max ->
    (forall k : nat,
       Z.of_nat (count_action ADecAdd (take k sched))
       <= active (trk p) + Z.of_nat (count_action AInc (take k sched))) ->
    exec sched p = Some (q, r, n) ->
    r = Ok tt /\ live q /\
    active (trk q) = active (trk p) + Z.of_nat (count_action AInc sched)
                     - Z.of_nat (count_action ADecAdd sched) /\
    (armed (trk p) = true \/ (0 < count_action AArm sched)%nat ->
     armed (trk q) = true).
Proof.
  induction sched as [| a rest IH]; intros p q r n Hl Hlen Hpre He.
  - simpl in He. injection He as <- <- <-. simpl.
    split; [reflexivity |]. split; [exact Hl |]. split; [lia |].
    intros [H | H]; [exact H | lia].
  - rewrite length_cons, Nat2Z.inj_succ in Hlen. simpl in He.
    destruct (step a p) as [[p' r'] |] eqn:Hs; [| discriminate].
    assert (Hd : a = ADecAdd -> 1 <= active (trk p)).
    { intros ->. specialize (Hpre 1%nat). simpl in Hpre. lia. }
    destruct (step_live a p p' r' Hl ltac:(lia) Hd Hs) as (-> & Hl' & Hact & Harm).
    destruct (exec rest p') as [[[q' r''] n'] |] eqn:He'; [| discriminate].
    injection He as <- <- <-.
    assert (Hpre' : forall k : nat,
       Z.of_nat (count_action ADecAdd (take k rest))
       <= active (trk p') + Z.of_nat (count_action AInc (take k rest))).
    { intros k. specialize (Hpre (S k)). simpl in Hpre. rewrite Hact.
      destruct a; simpl in *; lia. }
    destruct (IH p' q' r'' n' Hl' ltac:(destruct a; simpl in *; lia) Hpre' He')
      as (-> & Hlq & Hq & Harmq).
    split; [reflexivity |]. split; [exact Hlq |]. split.
    + rewrite Hq, Hact. destruct a; simpl; lia.
    + intros [H | H].
      * apply Harmq. left. apply Harm. left. exact H.
      * apply Harmq. destruct a; simpl in H;
          try (right; exact H). left. apply Harm. right. reflexivity.
Qed.

Lemma exec_cons a rest p :
  exec (a :: rest) p =
  match step a p with
  | None => None
  | Some (p', Panicked msg) => Some (p', Panicked msg, closed_by (trk p) (trk p'))
  | Some (p', Exited code) => Some (p', Exited code, closed_by (trk p) (trk p'))
  | Some (p', Ok _) =>
      match exec rest p' with
      | None => None
      | Some (q, r, n) => Some (q, r, (closed_by (trk p) (trk p') + n)%nat)
      end
  end.
Proof. reflexivity. Qed.

Lemma run_cons o ops t : run (o :: ops) t =
  match call o t with
  | (t', Ok _) => run ops t'
  | (t', Panicked msg) => (t', Panicked msg)
  | (t', Exited c) => (t', Exited c)
  end.
Proof. reflexivity. Qed.

(** Calls made one after the other are one of the schedules: [run] and
    [exec] on [sched_of] end in the same tracker with the same result. *)
Lemma run_exec (ops : list op) :
  forall (t : outstandingMessageTracker) (w : nat),
    exists n, exec (sched_of ops t) (mkPool t w)
              = Some (mkPool (fst (run ops t)) w, snd (run ops t), n).
Proof.
  induction ops as [| o ops' IH]; intros t w.
  - exists 0%nat. reflexivity.
  - rewrite run_cons. destruct o; cbn [sched_of call].
    + rewrite exec_cons. cbn [step Inc modify trk waiting fst].
      destruct (IH (set_active (AddInt64 (active t) 1) t) w) as [n E].
      rewrite E. eexists; reflexivity.
    + unfold Dec, bind.
      destruct (Dec_add_cases t) as [[_ E] | [_ E]]; rewrite E.
      * rewrite exec_cons. cbn [step trk waiting]. rewrite E.
        eexists; reflexivity.
      * destruct (AddInt64 (active t) (-1) =? 0) eqn:Hz.
        -- rewrite exec_cons. cbn [step trk waiting]. rewrite E, Hz.
           rewrite exec_cons. cbn [step trk waiting].
           destruct (Dec_zero (set_active (AddInt64 (active t) (-1)) t))
             as [t2 [[] | msg | code]] eqn:Ez; cbn [fst snd].
           ++ destruct (IH t2 w) as [n E2]. rewrite E2. eexists; reflexivity.
           ++ eexists; reflexivity.
           ++ eexists; reflexivity.
        -- rewrite exec_cons. cbn [step trk waiting]. rewrite E, Hz.
           unfold ret.
           destruct (IH (set_active (AddInt64 (active t) (-1)) t) w) as [n E2].
           rewrite E2. eexists; reflexivity.
    + rewrite exec_cons. cbn [step trk waiting].
      destruct (ArmForShutdown t) as [t2 [[] | msg | code]] eqn:Ea; cbn [fst snd].
      * destruct (IH t2 w) as [n E2]. rewrite E2. eexists; reflexivity.
      * eexists; reflexivity.
      * eexists; reflexivity.
Qed.

Lemma reachable_wf (q : pool) : reachable q -> wf (trk q).
Proof.
  intros (sched & n & He).
  apply (exec_wf sched init_pool q (Ok tt) n wf_new He).
Qed.

(** Arming a tracker that is armed already, with a closed channel if
    its counter is zero, changes nothing. *)
Lemma ArmForShutdown_again (t : outstandingMessageTracker) :
  wf t -> armed t = true -> (active t = 0 -> done t = ChanClosed) ->
  ArmForShutdown t = (t, Ok tt).
Proof.
  intros [H1 H2] Ha Hz. tracker_cases t; try discriminate; try reflexivity;
    match goal with e : _ = 0 |- _ => specialize (Hz e); discriminate end.
Qed.

(** C6: for every tracker state, a [Dec] whose subtraction gives a
    negative counter panics (so does every [Dec] on a counter that is
    zero or below); and in every run that did not panic the counter is
    not negative.  The run is any schedule of the calls of any number of
    goroutines on a fresh tracker, of at most [int64_max] steps. *)
Theorem Dec_below_zero_panics :
  (forall t : outstandingMessageTracker,
     AddInt64 (active t) (-1) < 0 ->
     snd (Dec t) = Panicked "outstandingMessageTracker: active < 0") /\
  (forall t : outstandingMessageTracker,
     int64_min < active t <= 0 ->
     snd (Dec t) = Panicked "outstandingMessageTracker: active < 0") /\
  (forall (sched : list action) (q : pool) (n : nat),
     Z.of_nat (length sched) <= int64_max ->
     exec sched init_pool = Some (q, Ok tt, n) ->
     0 <= active (trk q)).
Proof.
  assert (H1 : forall t : outstandingMessageTracker,
     AddInt64 (active t) (-1) < 0 -> snd (Dec t) = Panicked neg_msg).
  { intros t Hneg. unfold Dec, bind.
    destruct (Dec_add_cases t) as [[_ E] | [Hv _]]; [rewrite E; reflexivity | lia]. }
  split; [exact H1 |]. split.
  - intros t Hr. apply H1. unfold AddInt64.
    rewrite int64_wrap_id; unfold int64_min, int64_max in *; lia.
  - intros sched q n Hlen He.
    apply (exec_nonneg sched init_pool q n); simpl; [lia | lia | exact He].
Qed.

Lemma Dec_below_zero_panics_witness :
  snd (Dec newOutstandingMessageTracker)
    = Panicked "outstandingMessageTracker: active < 0" /\
  0 <= active (trk (mkPool (mkTracker 1 false ChanOpen false) 0)).
Proof.
  destruct Dec_below_zero_panics as (_ & H2 & H3). split.
  - apply H2. simpl. unfold int64_min. lia.
  - apply (H3 [AInc; AInc; ADecAdd] _ 0%nat).
    + simpl. unfold int64_max. lia.
    + reflexivity.
Defined.

(** C7: when [ArmForShutdown] is called on a tracker whose counter is
    zero, the call returns with the [Done] channel closed: no [Dec] is
    needed after it.  The tracker is any one reached from a fresh one. *)
Theorem ArmForShutdown_at_zero_closes :
  forall q : pool,
    reachable q -> active (trk q) = 0 ->
    exists t', ArmForShutdown (trk q) = (t', Ok tt) /\
               Done t' = ChanClosed /\ armed t' = true /\ active t' = 0.
Proof.
  intros q Hq Hz.
  destruct (ArmForShutdown_wf _ (reachable_wf q Hq))
    as (t' & E & _ & Ar & Ac & Cl & _).
  exists t'. split; [exact E |]. split; [apply Cl, Hz |].
  split; [exact Ar | congruence].
Qed.

Lemma ArmForShutdown_at_zero_closes_witness :
  exists t', ArmForShutdown newOutstandingMessageTracker = (t', Ok tt) /\
             Done t' = ChanClosed /\ armed t' = true /\ active t' = 0.
Proof.
  apply (ArmForShutdown_at_zero_closes init_pool).
  - exists [], 0%nat. reflexivity.
  - reflexivity.
Defined.

(** C8 as stated fails: one [Dec] then one [Inc] is a sequence with as
    many increments as decrements, and on a fresh tracker the [Dec]
    panics with the counter at -1. *)
Lemma balanced_Dec_first_panics :
  count_action AInc [ADecAdd; AInc] = count_action ADecAdd [ADecAdd; AInc] /\
  exec [ADecAdd; AInc] init_pool
    = Some (mkPool (mkTracker (-1) false ChanOpen false) 0,
            Panicked "outstandingMessageTracker: active < 0", 0%nat) /\
  run [OpDec; OpInc] newOutstandingMessageTracker
    = (mkTracker (-1) false ChanOpen false,
       Panicked "outstandingMessageTracker: active < 0").
Proof. repeat split; reflexivity. Qed.

(** C8, amended: for every schedule of [Inc] and [Dec] calls (of any
    goroutines, with [ArmForShutdown] calls anywhere) that has as many
    [Inc] as [Dec] and no [Dec] without an [Inc] before it, no call
    panics and the counter is back at zero; and if [ArmForShutdown] was
    called and every [Dec] has returned, [done] was closed by exactly one
    step and is closed. *)
Theorem balanced_matched_drains :
  forall (sched : list action) (q : pool) (r : result unit) (n : nat),
    count_action AInc sched = count_action ADecAdd sched ->
    matched sched ->
    Z.of_nat (length sched) <= int64_max ->
    exec sched init_pool = Some (q, r, n) ->
    r = Ok tt /\ active (trk q) = 0 /\
    ((0 < count_action AArm sched)%nat -> waiting q = 0%nat ->
     n = 1%nat /\ Done (trk q) = ChanClosed).
Proof.
  intros sched q r n Hbal Hm Hlen He.
  destruct (exec_matched sched init_pool q r n live_init) as (-> & Hl & Hact & Harm).
  - simpl. lia.
  - intros k. simpl. specialize (Hm k). lia.
  - exact He.
  - simpl in Hact. split; [reflexivity |]. split; [lia |].
    intros Harmed Hw. destruct Hl as (Hwf & _ & Hfire).
    specialize (Harm (or_intror Harmed)).
    assert (Hc : is_closed (done (trk q)) = true).
    { destruct (is_closed (done (trk q))) eqn:Hc; [reflexivity |].
      destruct (Hfire Harm eq_refl); lia. }
    destruct (exec_wf sched init_pool q (Ok tt) n wf_new He) as (_ & _ & Hn & _).
    split.
    + rewrite Hn. unfold closed_by. rewrite Hc. reflexivity.
    + unfold Done. destruct (done (trk q)); [discriminate | reflexivity].
Qed.

Lemma balanced_matched_drains_witness :
  Ok tt = Ok tt /\ active (mkTracker 0 true ChanClosed true) = 0 /\
  ((0 < count_action AArm [AInc; AArm; ADecAdd; ADecZero])%nat -> 0%nat = 0%nat ->
   1%nat = 1%nat /\ Done (mkTracker 0 true ChanClosed true) = ChanClosed).
Proof.
  apply (balanced_matched_drains [AInc; AArm; ADecAdd; ADecZero]
           (mkPool (mkTracker 0 true ChanClosed true) 0) (Ok tt) 1%nat).
  - reflexivity.
  - intros k. do 5 (destruct k as [| k]; [simpl; lia |]). simpl. lia.
  - simpl. unfold int64_max. lia.
  - reflexivity.
Defined.

(** C10: in every schedule of tracker calls on a fresh tracker, whatever
    the number of [ArmForShutdown] calls and wherever the two parts of a
    [Dec] fall around them, at most one step closes [done] and no step
    panics by closing it again; and [ArmForShutdown] on the tracker
    reached returns without a panic, a second call after it changes
    nothing, and a call when [done] is closed already changes
    nothing. *)
Theorem Done_closed_at_most_once :
  forall (sched : list action) (q : pool) (r : result unit) (n : nat),
    exec sched init_pool = Some (q, r, n) ->
    (n <= 1)%nat /\
    r <> Panicked "close of closed channel" /\
    exists t', ArmForShutdown (trk q) = (t', Ok tt) /\
               ArmForShutdown t' = (t', Ok tt) /\
               (Done (trk q) = ChanClosed -> t' = trk q).
Proof.
  intros sched q r n He.
  destruct (exec_wf sched init_pool q r n wf_new He) as (Hwf & _ & Hn & Hr).
  split; [rewrite Hn; apply closed_by_le |]. split.
  - destruct Hr as [-> | ->]; discriminate.
  - destruct (ArmForShutdown_wf _ Hwf) as (t' & E & W & Ar & Ac & Cl & _ & Same).
    exists t'. split; [exact E |]. split.
    + apply ArmForShutdown_again; [exact W | exact Ar |].
      intros Hz. apply Cl. congruence.
    + intros Hc. apply Same. unfold Done in Hc. rewrite Hc. reflexivity.
Qed.

Lemma Done_closed_at_most_once_witness :
  (1 <= 1)%nat /\
  Ok tt <> Panicked "close of closed channel" /\
  exists t', ArmForShutdown (mkTracker 0 true ChanClosed true) = (t', Ok tt) /\
             ArmForShutdown t' = (t', Ok tt) /\
             (Done (mkTracker 0 true ChanClosed true) = ChanClosed ->
              t' = mkTracker 0 true ChanClosed true).
Proof.
  apply (Done_closed_at_most_once
           [AArm; AInc; ADecAdd; AArm; ADecZero; AArm]
           (mkPool (mkTracker 0 true ChanClosed true) 0) (Ok tt) 1%nat).
  reflexivity.
Defined.

(** Calls made one after the other never close [done] twice either. *)
Lemma run_never_closes_twice (ops : list op) :
  snd (run ops newOutstandingMessageTracker) <> Panicked "close of closed channel".
Proof.
  destruct (run_exec ops newOutstandingMessageTracker 0) as [n He].
  destruct (exec_wf _ init_pool _ _ _ wf_new He) as (_ & _ & _ & [-> | ->]);
    discriminate.
Qed.

(** A [Dec] that brought the counter to zero can run its section under
    [mu] after a later [Inc] and after the arming: [done] is then closed
    while one delivery is outstanding. *)
Example done_closed_with_delivery_outstanding :
  exec [AInc; ADecAdd; AInc; AArm; ADecZero] init_pool
  = Some (mkPool (mkTracker 1 true ChanClosed true) 0, Ok tt, 1%nat).
Proof. reflexivity. Qed.

Lemma exec_bounded (sched : list action) :
  forall (p q : pool) (n : nat),
    0 <= active (trk p) ->
    active (trk p) + Z.of_nat (length sched) <= int64_max ->
    exec sched p = Some (q, Ok tt, n) ->
    active (trk q) <= active (trk p) + Z.of_nat (length sched).
Proof.
  induction sched as [| a rest IH]; intros p q n H0 Hlen He; simpl in He.
  - injection He as <- _. simpl. lia.
  - rewrite length_cons, Nat2Z.inj_succ in *.
    destruct (step a p) as [[p' r'] |] eqn:Hs; [| discriminate].
    destruct r' as [[] | msg | code]; try discriminate.
    destruct (exec rest p') as [[[q' r''] n'] |] eqn:He'; [| discriminate].
    injection He as <- -> _.
    assert (Hb : 0 <= active (trk p') <= active (trk p) + 1)
      by (apply (step_active a); [lia | exact Hs]).
    specialize (IH p' q' n' ltac:(lia) ltac:(lia) He'). lia.
Qed.

Lemma tracked_valid (t : outstandingMessageTracker) :
  tracked t -> wf t /\ 0 <= active t <= int64_max.
Proof.
  intros (sched & w & n & Hlen & He). split; [| split].
  - apply (exec_wf sched init_pool (mkPool t w) _ _ wf_new He).
  - apply (exec_nonneg sched init_pool (mkPool t w) n); simpl; [lia | lia | exact He].
  - pose proof (exec_bounded sched init_pool (mkPool t w) n ltac:(simpl; lia)
                  ltac:(simpl; lia) He) as Hb. simpl in Hb. lia.
Qed.

(** One [Inc] and then one [Dec] on such a tracker: no panic, and the
    counter is what it was. *)
Lemma Dec_after_Inc (t : outstandingMessageTracker) :
  tracked t ->
  exists t', Dec (fst (Inc t)) = (t', Ok tt) /\ active t' = active t /\ wf t'.
Proof.
  intros Ht. destruct (tracked_valid t Ht) as (Hwf & H0 & Hmax).
  unfold Inc, modify. cbn [fst]. unfold Dec, bind.
  set (t1 := set_active (AddInt64 (active t) 1) t).
  assert (Ev : AddInt64 (active t1) (-1) = active t).
  { unfold t1; simpl. destruct (Z.eq_dec (active t) int64_max) as [-> | Hne].
    - vm_compute. reflexivity.
    - unfold AddInt64. rewrite (int64_wrap_id (active t + 1))
        by (unfold int64_min, int64_max in *; lia).
      rewrite int64_wrap_id by (unfold int64_min, int64_max in *; lia). lia. }
  destruct (Dec_add_cases t1) as [[Hv E] | [Hv E]]; rewrite Ev in *; [lia |].
  rewrite E.
  assert (Hwf1 : wf (set_active (active t) t1)) by (apply wf_set_active, wf_set_active, Hwf).
  destruct (Z.eqb_spec (active t) 0) as [Hz | Hz].
  - destruct (Dec_zero_wf _ Hwf1) as (t' & E' & W & Ac & _).
    exists t'. rewrite E'. split; [reflexivity |]. split; [exact Ac | exact W].
  - eexists. split; [reflexivity |]. split; [reflexivity | exact Hwf1].
Qed.

(** ** The callback *)

Section DeliveryProperties.

Context {T : Type}.
Variable UnmarshalMessage :
  gmap string string -> list Byte.byte -> T + error.

Lemma emit_run (e : Event T) (w : World T) :
  emit e w = (mkWorld (manager w) (events w ++ [e]), Ok tt).
Proof. reflexivity. Qed.

(** The body of the callback always returns: it changes nothing but the
    list of events, fails to decode without a call of the handler, and
    turns a panic of the handler into its result. *)
Lemma deliver_body_spec (c : Closure T) (msgID : string) (publishTime attempt : Z)
    (attrs : gmap string string) (data : list Byte.byte) (w : World T) :
  exists (evs : list (Event T)) (r : option error),
    deliver_body UnmarshalMessage c msgID publishTime attempt attrs data w
      = (mkWorld (manager w) (events w ++ evs), Ok r) /\
    (forall e, UnmarshalMessage attrs data = inr e ->
       evs = [EvLogErr (cl_log c) e msgID attempt "failed to unmarshal message"] /\
       r = Some (ErrsError Internal "failed to unmarshal message" (Some e))) /\
    (forall msg, UnmarshalMessage attrs data = inl msg ->
       In (EvHandler msg) evs /\
       match Handler (cl_subscriptionCfg c) msg with
       | Returns err => r = err
       | Panics payload =>
           r = Some (ErrsError Internal ("subscriber panicked: " ++ payload) None)
       | PanicsNil => r = None
       end).
Proof.
  unfold deliver_body. destruct (UnmarshalMessage attrs data) as [msg | e].
  - unfold bind, get, panicCatchWrapper, call_handler, recover, bind, ret, emit,
      modify.
    destruct w as [m evs0]. simpl.
    destruct (currTrace (rt m)),
      (Handler (cl_subscriptionCfg c) msg) as [err | payload |] eqn:EH;
      simpl;
      (eexists; eexists; split; [rewrite <- !List.app_assoc; reflexivity |]; split;
       [intros e He; discriminate |
        intros msg' Hm; assert (msg' = msg) by congruence; subst msg';
        rewrite EH; split; [simpl; tauto | reflexivity]]).
  - unfold bind, ret. rewrite emit_run. 
    eexists; eexists; split; [reflexivity |]. split.
    + intros e' He. injection He as <-. split; reflexivity.
    + intros msg Hm. discriminate.
Qed.

(** A delivery on a manager that holds a tracker. *)
Lemma deliver_spec (c : Closure T) (msgID : string) (publishTime attempt : Z)
    (attrs : gmap string string) (data : list Byte.byte) (w : World T)
    (t : outstandingMessageTracker) :
  outstanding (manager w) = Some t -> tracked t ->
  exists (evs : list (Event T)) (r : option error) (t' : outstandingMessageTracker),
    deliver UnmarshalMessage c msgID publishTime attempt attrs data w
      = (mkWorld (mkManager (ctxDone (manager w)) (cfg (manager w))
                    (rt (manager w)) (Some t'))
                 (events w ++ op_begin w ++ evs ++ op_finish w), Ok r) /\
    Dec (fst (Inc t)) = (t', Ok tt) /\ active t' = active t /\
    (forall e, UnmarshalMessage attrs data = inr e ->
       evs = [EvLogErr (cl_log c) e msgID attempt "failed to unmarshal message"] /\
       r = Some (ErrsError Internal "failed to unmarshal message" (Some e))) /\
    (forall msg, UnmarshalMessage attrs data = inl msg ->
       In (EvHandler msg) evs /\
       match Handler (cl_subscriptionCfg c) msg with
       | Returns err => r = err
       | Panics payload =>
           r = Some (ErrsError Internal ("subscriber panicked: " ++ payload) None)
       | PanicsNil => r = None
       end).
Proof.
  intros Ho Ht. destruct (Dec_after_Inc t Ht) as (t' & ED & Hact & _).
  destruct w as [[cd cf rq o] evs0]. simpl in Ho. subst o.
  unfold deliver, op_begin, op_finish. unfold bind at 1. unfold on_outstanding at 1.
  cbn [manager outstanding events ctxDone cfg rt]. unfold Inc at 1, modify at 1.
  unfold Inc, modify in ED. cbn [fst] in ED.
  set (t1 := set_active (AddInt64 (active t) 1) t) in *.
  set (w1 := mkWorld (mkManager cd cf rq (Some t1)) evs0).
  unfold with_defer at 1. unfold bind at 1, get at 1.
  destruct (Testing (static cf)) eqn:Htest;
    change (Testing (static (cfg (manager w1)))) with (Testing (static cf));
    rewrite Htest; cbn [negb].
  - destruct (deliver_body_spec c msgID publishTime attempt attrs data w1)
      as (evs & r & E & Hdec & Hmsg).
    exists evs, r, t'. split; [| auto].
    rewrite E. unfold on_outstanding, w1.
    cbn [manager outstanding events ctxDone cfg rt].
    rewrite ED, app_nil_r. reflexivity.
  - unfold bind at 1. rewrite emit_run. unfold with_defer at 1.
    destruct (deliver_body_spec c msgID publishTime attempt attrs data
                (mkWorld (manager w1) (events w1 ++ [EvBeginOperation])))
      as (evs & r & E & Hdec & Hmsg).
    exists evs, r, t'. split; [| auto].
    rewrite E, emit_run. unfold on_outstanding, w1.
    cbn [manager outstanding events ctxDone cfg rt].
    rewrite ED, <- !List.app_assoc. reflexivity.
Qed.

(** A delivery on a manager whose tracker is nil panics at [Inc], before
    anything else is done. *)
Lemma deliver_nil (c : Closure T) (msgID : string) (publishTime attempt : Z)
    (attrs : gmap string string) (data : list Byte.byte) (w : World T) :
  outstanding (manager w) = None ->
  deliver UnmarshalMessage c msgID publishTime attempt attrs data w
    = (w, Panicked nil_deref).
Proof.
  intros Ho. unfold deliver, bind, on_outstanding. rewrite Ho. reflexivity.
Qed.

(** On a manager that holds a tracker (one reached from a fresh
    tracker) a delivery returns to the backend.  When the handler panics
    with a value, what is returned is an error of code [Internal] whose
    message holds that value.  Whatever the handler does and also when
    the message does not decode, the tracker is left as one [Inc] and
    one [Dec] leave it, the counter where it was. *)
Theorem deliver_contains_panic :
  forall (c : Closure T) (msgID : string) (publishTime attempt : Z)
         (attrs : gmap string string) (data : list Byte.byte) (w : World T)
         (t : outstandingMessageTracker),
    outstanding (manager w) = Some t -> tracked t ->
    exists (w' : World T) (r : option error) (t' : outstandingMessageTracker),
      deliver UnmarshalMessage c msgID publishTime attempt attrs data w
        = (w', Ok r) /\
      outstanding (manager w') = Some t' /\
      Dec (fst (Inc t)) = (t', Ok tt) /\
      active t' = active t /\
      (forall msg payload,
         UnmarshalMessage attrs data = inl msg ->
         Handler (cl_subscriptionCfg c) msg = Panics payload ->
         r = Some (ErrsError Internal ("subscriber panicked: " ++ payload) None)) /\
      (forall msg err,
         UnmarshalMessage attrs data = inl msg ->
         Handler (cl_subscriptionCfg c) msg = Returns err ->
         r = err).
Proof.
  intros c msgID publishTime attempt attrs data w t Ho Ht.
  destruct (deliver_spec c msgID publishTime attempt attrs data w t Ho Ht)
    as (evs & r & t' & E & ED & Hact & _ & Hmsg).
  eexists _, r, t'. split; [exact E |]. split; [reflexivity |].
  split; [exact ED |]. split; [exact Hact |]. split.
  - intros msg payload Hm Hp. destruct (Hmsg msg Hm) as [_ Hr].
    rewrite Hp in Hr. exact Hr.
  - intros msg err Hm Hp. destruct (Hmsg msg Hm) as [_ Hr].
    rewrite Hp in Hr. exact Hr.
Qed.

(** On a manager that holds a tracker (one reached from a fresh
    tracker), when the message of a delivery does not decode, the
    callback returns an error of code [Internal] with the decoding error
    as its cause; the only calls it made are the log line, which carries
    the message id and the delivery attempt, and, outside tests, the
    begin and the end of the operation: the handler was not called. *)
Theorem deliver_decode_failure :
  forall (c : Closure T) (msgID : string) (publishTime attempt : Z)
         (attrs : gmap string string) (data : list Byte.byte) (w : World T)
         (t : outstandingMessageTracker) (e : error),
    outstanding (manager w) = Some t -> tracked t ->
    UnmarshalMessage attrs data = inr e ->
    exists w' : World T,
      deliver UnmarshalMessage c msgID publishTime attempt attrs data w
        = (w', Ok (Some (ErrsError Internal "failed to unmarshal message" (Some e)))) /\
      events w'
      = (events w ++ op_begin w ++
         [EvLogErr (cl_log c) e msgID attempt "failed to unmarshal message"] ++
         op_finish w)%list /\
      (forall msg : T,
         ~ In (EvHandler msg)
              (op_begin w ++
               [EvLogErr (cl_log c) e msgID attempt "failed to unmarshal message"] ++
               op_finish w)).
Proof.
  intros c msgID publishTime attempt attrs data w t e Ho Ht He.
  destruct (deliver_spec c msgID publishTime attempt attrs data w t Ho Ht)
    as (evs & r & t' & E & _ & _ & Hdec & _).
  destruct (Hdec e He) as [-> ->].
  eexists. split; [exact E |]. split; [reflexivity |].
  intros msg. unfold op_begin, op_finish.
  destruct (Testing (static (cfg (manager w)))); simpl;
    intros H; repeat (destruct H as [H | H]; [discriminate |]); exact H.
Qed.

(** C2, on the code: a panic does reach the backend, and a panic of the
    handler can be reported as success.  On a manager made by
    [NewManager] the tracker pointer is nil: a delivery whose message
    decodes and whose handler would panic itself panics on the nil
    pointer at [Inc]; the handler is not called, nothing is decremented
    and the backend gets the panic instead of an error.  And on a
    manager that holds a tracker, a handler that panics with nil
    ([panic(nil)], Go before 1.21) makes the callback return nil, the
    result of a delivery that went well, since the deferred function
    sets the error only when [recover()] is not nil. *)
Theorem handler_panic_not_contained :
  (forall (c : Closure T) (msgID : string) (publishTime attempt : Z)
          (attrs : gmap string string) (data : list Byte.byte)
          (cfg : Config) (rt : RequestTracker) (evs : list (Event T))
          (msg : T) (payload : string),
     UnmarshalMessage attrs data = inl msg ->
     Handler (cl_subscriptionCfg c) msg = Panics payload ->
     deliver UnmarshalMessage c msgID publishTime attempt attrs data
       (mkWorld (NewManager cfg rt) evs)
     = (mkWorld (NewManager cfg rt) evs,
        Panicked "runtime error: invalid memory address or nil pointer dereference")) /\
  (forall (c : Closure T) (msgID : string) (publishTime attempt : Z)
          (attrs : gmap string string) (data : list Byte.byte) (w : World T)
          (t : outstandingMessageTracker) (msg : T),
     outstanding (manager w) = Some t -> tracked t ->
     UnmarshalMessage attrs data = inl msg ->
     Handler (cl_subscriptionCfg c) msg = PanicsNil ->
     exists w' : World T,
       deliver UnmarshalMessage c msgID publishTime attempt attrs data w
       = (w', Ok None) /\
       In (EvHandler msg) (events w')).
Proof.
  split.
  - intros. reflexivity.
  - intros c msgID publishTime attempt attrs data w t msg Ho Ht Hm Hp.
    destruct (deliver_spec c msgID publishTime attempt attrs data w t Ho Ht)
      as (evs & r & t' & E & _ & _ & _ & Hmsg).
    destruct (Hmsg msg Hm) as [Hin Hr]. rewrite Hp in Hr. subst r.
    eexists. split; [exact E |]. simpl.
    apply in_or_app. right. apply in_or_app. right.
    apply in_or_app. left. exact Hin.
Qed.

(** C5, on the code: on a manager made by [NewManager] the tracker
    pointer is nil, and a delivery whose message does not decode panics
    on the nil pointer at [Inc]: no error of code [Internal] is
    returned to the backend and nothing is logged, the store is as it
    was. *)
Theorem undecodable_delivery_panics :
  forall (c : Closure T) (msgID : string) (publishTime attempt : Z)
         (attrs : gmap string string) (data : list Byte.byte)
         (cfg : Config) (rt : RequestTracker) (evs : list (Event T))
         (e : error),
    UnmarshalMessage attrs data = inr e ->
    deliver UnmarshalMessage c msgID publishTime attempt attrs data
      (mkWorld (NewManager cfg rt) evs)
    = (mkWorld (NewManager cfg rt) evs,
       Panicked "runtime error: invalid memory address or nil pointer dereference").
Proof. intros. reflexivity. Qed.

End DeliveryProperties.

Lemma handler_panic_not_contained_witness :
  deliver (fun _ _ => inl "hello") (sample_closure (fun _ => Panics "boom"))
    "id-1" 0 1 ∅ []
    (mkWorld (NewManager (sample_config false) (mkRequestTracker true)) [])
  = (mkWorld (NewManager (sample_config false) (mkRequestTracker true)) [],
     Panicked "runtime error: invalid memory address or nil pointer dereference") /\
  exists w' : World string,
    deliver (fun _ _ => inl "hello") (sample_closure (fun _ => PanicsNil))
      "id-1" 0 1 ∅ [] (sample_world true (Some newOutstandingMessageTracker))
    = (w', Ok None) /\
    In (EvHandler "hello") (events w').
Proof.
  destruct (handler_panic_not_contained (fun _ _ => @inl string error "hello"))
    as [H1 H2].
  split.
  - apply (H1 (sample_closure (fun _ => Panics "boom")) "id-1" 0 1 ∅ []
              (sample_config false) (mkRequestTracker true) [] "hello" "boom");
      reflexivity.
  - apply (H2 (sample_closure (fun _ => PanicsNil)) "id-1" 0 1 ∅ []
              (sample_world true (Some newOutstandingMessageTracker))
              newOutstandingMessageTracker "hello").
    + reflexivity.
    + exists [], 0%nat, 0%nat. split; [unfold int64_max; simpl; lia | reflexivity].
    + reflexivity.
    + reflexivity.
Defined.

Lemma undecodable_delivery_panics_witness :
  deliver (fun _ _ => inr (PlainError "bad json"))
    (sample_closure (fun _ => Returns None)) "id-1" 0 3 ∅ []
    (mkWorld (NewManager (sample_config false) (mkRequestTracker true)) [])
  = (mkWorld (T := string) (NewManager (sample_config false) (mkRequestTracker true)) [],
     Panicked "runtime error: invalid memory address or nil pointer dereference").
Proof.
  apply (undecodable_delivery_panics (fun _ _ => inr (PlainError "bad json"))
           (sample_closure (fun _ => Returns None)) "id-1" 0 3 ∅ []
           (sample_config false) (mkRequestTracker true) []
           (PlainError "bad json")).
  reflexivity.
Defined.

(** The callback on [panic(nil)], run: the handler is called, the trace
    is closed with no error and nil goes back to the backend. *)
Example deliver_panic_nil_run :
  deliver (fun _ _ => inl "hello") (sample_closure (fun _ => PanicsNil))
    "id-1" 0 1 ∅ [] (sample_world true (Some newOutstandingMessageTracker))
  = (mkWorld (manager (sample_world true (Some newOutstandingMessageTracker)))
       [EvBeginRequest
          (mkRequest PubSubMessage "shop"
             (mkPubSubMsgData "orders" "mailer" "id-1" 1 0) [[]] 7 false "" None 0);
        EvTraceBeginRequest
          (mkRequest PubSubMessage "shop"
             (mkPubSubMsgData "orders" "mailer" "id-1" 1 0) [[]] 7 false "" None 0);
        EvHandler "hello";
        EvTraceFinishRequest
          (mkRequest PubSubMessage "shop"
             (mkPubSubMsgData "orders" "mailer" "id-1" 1 0) [[]] 7 false "" None 0)
          None;
        EvFinishRequest],
     Ok None).
Proof. reflexivity. Qed.

Lemma deliver_contains_panic_witness :
  exists (w' : World string) (r : option error) (t' : outstandingMessageTracker),
    deliver (fun _ _ => inl "hello") (sample_closure (fun _ => Panics "boom"))
      "id-1" 0 1 ∅ [] (sample_world false (Some newOutstandingMessageTracker))
      = (w', Ok r) /\
    outstanding (manager w') = Some t' /\
    Dec (fst (Inc newOutstandingMessageTracker)) = (t', Ok tt) /\
    active t' = active newOutstandingMessageTracker /\
    (forall msg payload,
       @inl string error "hello" = inl msg ->
       Handler (cl_subscriptionCfg (sample_closure (fun _ => Panics "boom"))) msg
       = Panics payload ->
       r = Some (ErrsError Internal ("subscriber panicked: " ++ payload) None)) /\
    (forall msg err,
       @inl string error "hello" = inl msg ->
       Handler (cl_subscriptionCfg (sample_closure (fun _ => Panics "boom"))) msg
       = Returns err ->
       r = err).
Proof.
  apply (deliver_contains_panic (fun _ _ => inl "hello")
           (sample_closure (fun _ => Panics "boom")) "id-1" 0 1 ∅ []
           (sample_world false (Some newOutstandingMessageTracker))
           newOutstandingMessageTracker).
  - reflexivity.
  - exists [], 0%nat, 0%nat. split; [unfold int64_max; simpl; lia | reflexivity].
Defined.

Example deliver_panic_run :
  deliver (fun _ _ => inl "hello") (sample_closure (fun _ => Panics "boom"))
    "id-1" 0 1 ∅ [] (sample_world true (Some newOutstandingMessageTracker))
  = (mkWorld (manager (sample_world true (Some newOutstandingMessageTracker)))
       [EvBeginRequest
          (mkRequest PubSubMessage "shop"
             (mkPubSubMsgData "orders" "mailer" "id-1" 1 0) [[]] 7 false "" None 0);
        EvTraceBeginRequest
          (mkRequest PubSubMessage "shop"
             (mkPubSubMsgData "orders" "mailer" "id-1" 1 0) [[]] 7 false "" None 0);
        EvHandler "hello";
        EvTraceFinishRequest
          (mkRequest PubSubMessage "shop"
             (mkPubSubMsgData "orders" "mailer" "id-1" 1 0) [[]] 7 false "" None 0)
          (Some (ErrsError Internal "subscriber panicked: boom" None));
        EvFinishRequest],
     Ok (Some (ErrsError Internal "subscriber panicked: boom" None))).
Proof. reflexivity. Qed.

Lemma deliver_decode_failure_witness :
  exists w' : World string,
    deliver (fun _ _ => inr (PlainError "bad json")) (sample_closure (fun _ => Returns None))
      "id-1" 0 3 ∅ [] (sample_world false (Some newOutstandingMessageTracker))
      = (w', Ok (Some (ErrsError Internal "failed to unmarshal message"
                         (Some (PlainError "bad json"))))) /\
    events w'
    = [EvBeginOperation;
       EvLogErr (mkLogger "shop" "orders" "mailer") (PlainError "bad json") "id-1" 3
         "failed to unmarshal message";
       EvFinishOperation] /\
    (forall msg : string,
       ~ In (EvHandler msg)
            [EvBeginOperation;
             EvLogErr (mkLogger "shop" "orders" "mailer") (PlainError "bad json")
               "id-1" 3 "failed to unmarshal message";
             EvFinishOperation]).
Proof.
  apply (deliver_decode_failure (fun _ _ => inr (PlainError "bad json"))
           (sample_closure (fun _ => Returns None)) "id-1" 0 3 ∅ []
           (sample_world false (Some newOutstandingMessageTracker))
           newOutstandingMessageTracker (PlainError "bad json")).
  - reflexivity.
  - exists [], 0%nat, 0%nat. split; [unfold int64_max; simpl; lia | reflexivity].
  - reflexivity.
Defined.

(** ** Registration *)

Section RegistrationProperties.

Context {T : Type}.

Lemma effective_policy_cases (scfg : SubscriptionConfig T) :
  (negative_bound scfg /\ exists msg, effective_policy (cfg_RetryPolicy scfg) = inl msg) \/
  (~ negative_bound scfg /\
   effective_policy (cfg_RetryPolicy scfg)
   = inr match cfg_RetryPolicy scfg with
         | None => mkRetryPolicy (10 * Second) (10 * Minute) 100
         | Some p => with_defaults p
         end).
Proof.
  unfold negative_bound, effective_policy.
  destruct (cfg_RetryPolicy scfg) as [p |]; simpl.
  - destruct (Z.ltb_spec (MinBackoff p) 0) as [Hm | Hm].
    + left. split; [exists p; auto | eexists; reflexivity].
    + destruct (Z.ltb_spec (MaxBackoff p) 0) as [Hx | Hx].
      * left. split; [exists p; auto | eexists; reflexivity].
      * right. split; [| reflexivity].
        intros (p' & Hp & Hneg). injection Hp as <-. lia.
  - right. split; [| reflexivity]. intros (p & Hp & _). discriminate.
Qed.

Lemma getSubscriptionConfig_cases (t : Topic) (tc : PubsubTopic) (name : string)
    (w : World T) :
  topicCfg t = Some tc ->
  (Testing (static (cfg (manager w))) = true /\
   getSubscriptionConfig t name w
   = (w, Ok (mkPubsubSubscription name,
             mkStaticPubsubSubscription (TestService (static (cfg (manager w)))) 0))) \/
  (Testing (static (cfg (manager w))) = false /\
   ((exists sub ssub, declared w t name /\
                      getSubscriptionConfig t name w = (w, Ok (sub, ssub))) \/
    (~ declared w t name /\ fatal (snd (getSubscriptionConfig t name w))))).
Proof.
  intros Htc. unfold getSubscriptionConfig, bind, get, declared.
  destruct (Testing (static (cfg (manager w)))) eqn:Ht; [left; auto |].
  right. split; [reflexivity |]. rewrite Htc.
  destruct (Subscriptions tc !! name) as [sub |] eqn:E1.
  - destruct (PubsubTopics (static (cfg (manager w))) !! EncoreName tc)
      as [stopic |] eqn:E2.
    + destruct (static_Subscriptions stopic !! name) as [ssub |] eqn:E3.
      * left. exists sub, ssub. split; [| reflexivity].
        exists tc, sub, stopic, ssub. auto.
      * right. split; [| exact I].
        intros (tc' & s' & st' & ss' & H1 & H2 & H3 & H4). congruence.
    + right. split; [| exact I].
      intros (tc' & s' & st' & ss' & H1 & H2 & H3 & H4). congruence.
  - right. split; [| exact I].
    intros (tc' & s' & st' & ss' & H1 & H2 & H3 & H4). congruence.
Qed.

(** What [NewSubscription] does once the topic is known to come from
    [NewTopic]. *)
Lemma NewSubscription_cases (t : Topic) (tc : PubsubTopic) (name : string)
    (scfg : SubscriptionConfig T) (w : World T) :
  topicCfg t = Some tc -> topic t = Ref -> mgr t = Ref ->
  (fatal (snd (NewSubscription t name scfg w)) /\
   (negative_bound scfg \/
    (Testing (static (cfg (manager w))) = false /\ ~ declared w t name))) \/
  (~ negative_bound scfg /\
   (Testing (static (cfg (manager w))) = false -> declared w t name) /\
   exists log sub tail,
     NewSubscription t name scfg w
     = (mkWorld (manager w)
          (events w ++
           EvSubscribe log
             match cfg_RetryPolicy scfg with
             | None => mkRetryPolicy (10 * Second) (10 * Minute) 100
             | Some p => with_defaults p
             end sub :: tail),
        Ok (mkSubscription Ref))).
Proof.
  intros Htc Htop Hmgr. unfold NewSubscription. rewrite Htc, Htop, Hmgr. simpl.
  destruct (effective_policy_cases scfg) as [(Hneg & msg & E) | (Hneg & E)];
    rewrite E.
  - left. split; [exact I | left; exact Hneg].
  - destruct (getSubscriptionConfig_cases t tc name w Htc)
      as [(Ht & Eg) | (Ht & [(sub & ssub & Hd & Eg) | (Hd & Hf)])].
    + right. split; [exact Hneg |]. split; [congruence |].
      do 3 eexists. unfold bind at 1. rewrite Eg.
      unfold bind, get, emit, modify, ret. simpl. rewrite Ht. simpl.
      reflexivity.
    + right. split; [exact Hneg |]. split; [auto |].
      do 3 eexists. unfold bind at 1. rewrite Eg.
      unfold bind, get, emit, modify, ret. simpl. rewrite Ht. simpl.
      rewrite <- List.app_assoc. reflexivity.
    + left. split; [| right; auto]. unfold bind at 1.
      destruct (getSubscriptionConfig t name w) as [w1 [v | m | c]];
        simpl in *; [contradiction | exact I | exact I].
Qed.

(** C9: [NewSubscription] panics or ends the process exactly when the
    topic does not come from [NewTopic], or a retry policy with a
    negative bound was given, or the process is not under test and the
    name is not declared in its configuration.  In every other case it
    returns the subscription (its type has no error to return). *)
Theorem NewSubscription_fatal_iff :
  forall (t : Topic) (name : string) (scfg : SubscriptionConfig T) (w : World T),
    (fatal (snd (NewSubscription t name scfg w)) <->
     ~ created_by_NewTopic t \/ negative_bound scfg \/
     (Testing (static (cfg (manager w))) = false /\ ~ declared w t name)) /\
    (~ fatal (snd (NewSubscription t name scfg w)) <->
     exists w' s, NewSubscription t name scfg w = (w', Ok s)).
Proof.
  intros t name scfg w.
  assert (Hsplit : ~ fatal (snd (NewSubscription t name scfg w)) <->
     exists w' s, NewSubscription t name scfg w = (w', Ok s)).
  { destruct (NewSubscription t name scfg w) as [w' [s | m | c]]; simpl; split.
    - intros _. eauto.
    - intros _ H. exact H.
    - intros H. exfalso. apply H. exact I.
    - intros (w'' & s & H). discriminate.
    - intros H. exfalso. apply H. exact I.
    - intros (w'' & s & H). discriminate. }
  split; [| exact Hsplit].
  destruct (topicCfg t) as [tc |] eqn:Htc.
  - destruct (topic t) eqn:Htop.
    + split.
      * intros _. left. intros (_ & H & _). congruence.
      * intros _. unfold NewSubscription. rewrite Htc, Htop. exact I.
    + destruct (mgr t) eqn:Hmgr.
      * split.
        -- intros _. left. intros (_ & _ & H). congruence.
        -- intros _. unfold NewSubscription. rewrite Htc, Htop, Hmgr. exact I.
      * destruct (NewSubscription_cases t tc name scfg w Htc Htop Hmgr)
          as [(Hf & Hc) | (Hn & Hd & log & sub & tail & E)].
        -- split; [intros _; right; exact Hc | intros _; exact Hf].
        -- rewrite E. simpl. split; [contradiction |].
           intros [Hc | [Hneg | (Ht & Hnd)]].
           ++ apply Hc. split; [congruence | auto].
           ++ exact (Hn Hneg).
           ++ exact (Hnd (Hd Ht)).
  - split.
    + intros _. left. intros (H & _). congruence.
    + intros _. unfold NewSubscription. rewrite Htc. exact I.
Qed.

(** C3, amended: in every registration that returns, the policy handed
    to [Subscribe] is 10 s, 10 min and 100 retries when no retry policy
    was given; when one was given, a zero [MinBackoff] is replaced by
    10 s, a zero [MaxBackoff] by 10 min, and [MaxRetries] is the one
    given. *)
Theorem NewSubscription_policy_defaults :
  forall (t : Topic) (name : string) (scfg : SubscriptionConfig T)
         (w w' : World T) (s : Subscription),
    NewSubscription t name scfg w = (w', Ok s) ->
    exists log policy sub tail,
      events w' = (events w ++ EvSubscribe log policy sub :: tail)%list /\
      match cfg_RetryPolicy scfg with
      | None =>
          MinBackoff policy = 10 * Second /\
          MaxBackoff policy = 10 * Minute /\
          MaxRetries policy = 100
      | Some p =>
          MinBackoff policy
          = (if MinBackoff p =? 0 then 10 * Second else MinBackoff p) /\
          MaxBackoff policy
          = (if MaxBackoff p =? 0 then 10 * Minute else MaxBackoff p) /\
          MaxRetries policy = MaxRetries p
      end.
Proof.
  intros t name scfg w w' s E.
  destruct (topicCfg t) as [tc |] eqn:Htc;
    [| unfold NewSubscription in E; rewrite Htc in E; discriminate].
  destruct (topic t) eqn:Htop;
    [unfold NewSubscription in E; rewrite Htc, Htop in E; discriminate |].
  destruct (mgr t) eqn:Hmgr;
    [unfold NewSubscription in E; rewrite Htc, Htop, Hmgr in E; discriminate |].
  destruct (NewSubscription_cases t tc name scfg w Htc Htop Hmgr)
    as [(Hf & _) | (_ & _ & log & sub & tail & E')].
  - rewrite E in Hf. contradiction.
  - rewrite E' in E. injection E as <- _.
    eexists log, _, sub, tail. split; [reflexivity |].
    destruct (cfg_RetryPolicy scfg) as [p |]; simpl; auto.
Qed.

End RegistrationProperties.

(** C3 as stated fails: a retry policy is given with all three fields
    left at zero, and the policy handed to [Subscribe] has 10 s and
    10 min but 0 retries, not 100. *)
Lemma zero_policy_keeps_zero_retries :
  NewSubscription sample_topic "mailer"
    (mkSubscriptionConfig (fun _ : string => Returns None) (Some (mkRetryPolicy 0 0 0)))
    (registering_world false)
  = (mkWorld (manager (registering_world false))
       [EvSubscribe (mkLogger "shop" "orders" "mailer")
          (mkRetryPolicy 10000000000 600000000000 0)
          (mkPubsubSubscription "mailer");
        EvLogInfo (mkLogger "shop" "orders" "mailer") "registered subscription"],
     Ok (mkSubscription Ref)).
Proof. vm_compute. reflexivity. Qed.

(** A policy with two bounds set and no [MaxRetries] has none either:
    the bounds are kept, the retries are 0. *)
Example partial_policy_keeps_zero_retries :
  NewSubscription sample_topic "mailer"
    (mkSubscriptionConfig (fun _ : string => Returns None)
       (Some (mkRetryPolicy (1 * Second) (8 * Second) 0)))
    (registering_world true)
  = (mkWorld (manager (registering_world true))
       [EvSubscribe (mkLogger "shop" "orders" "mailer")
          (mkRetryPolicy 1000000000 8000000000 0)
          (mkPubsubSubscription "mailer")],
     Ok (mkSubscription Ref)).
Proof. vm_compute. reflexivity. Qed.

Lemma NewSubscription_policy_defaults_witness :
  exists log policy sub tail,
    events (mkWorld (manager (registering_world true))
              [EvSubscribe (mkLogger "shop" "orders" "mailer")
                 (mkRetryPolicy 10000000000 600000000000 100)
                 (mkPubsubSubscription "mailer")])
    = (events (registering_world true) ++ EvSubscribe log policy sub :: tail)%list /\
    MinBackoff policy = 10 * Second /\
    MaxBackoff policy = 10 * Minute /\
    MaxRetries policy = 100.
Proof.
  apply (NewSubscription_policy_defaults sample_topic "mailer"
           (mkSubscriptionConfig (fun _ : string => Returns None) None)
           (registering_world true) _ (mkSubscription Ref)).
  vm_compute. reflexivity.
Defined.

(** ** Shutdown *)

Section ShutdownProperties.

Context {T : Type}.

(** C1, on the code: [NewManager] leaves [outstanding] nil, so
    [Shutdown] on a manager it made cancels the context and then panics
    in [ArmForShutdown], before the [select]. *)
Theorem Shutdown_after_NewManager_panics :
  forall (cfg : Config) (rt : RequestTracker) (evs : list (Event T)) (force : chan),
    Shutdown force (mkWorld (NewManager cfg rt) evs)
    = (mkWorld (mkManager true cfg rt None) evs,
       Panicked "runtime error: invalid memory address or nil pointer dereference").
Proof. reflexivity. Qed.

(** With a tracker in place [Shutdown] does what C1 says: the context
    is cancelled, the tracker armed, and the [select] is reached with
    the cases that can proceed. *)
Lemma Shutdown_with_tracker (force : chan) (w : World T)
    (t : outstandingMessageTracker) :
  outstanding (manager w) = Some t -> wf t ->
  exists t',
    ArmForShutdown t = (t', Ok tt) /\ armed t' = true /\
    Shutdown force w
    = (mkWorld (mkManager true (cfg (manager w)) (rt (manager w)) (Some t'))
         (events w),
       Ok (select_ready (Done t') force)).
Proof.
  intros Ho Hwf.
  destruct (ArmForShutdown_wf t Hwf) as (t' & E & _ & Ar & _).
  exists t'. split; [exact E |]. split; [exact Ar |].
  unfold Shutdown, bind, cancelCtx, modify, on_outstanding, ret. simpl.
  rewrite Ho, E. reflexivity.
Qed.

End ShutdownProperties.

(** ** The backoff policy *)

Lemma clamp_bounds (x lo hi : Z) :
  lo <= hi -> lo <= Backoff.clamp x lo hi <= hi.
Proof. unfold Backoff.clamp. lia. Qed.

Lemma clamp_mono (x y lo hi : Z) :
  x <= y -> Backoff.clamp x lo hi <= Backoff.clamp y lo hi.
Proof. unfold Backoff.clamp. lia. Qed.

Lemma nextDelay_mono (p : RetryPolicy) (a b : Z) :
  MinBackoff p <= MaxBackoff p -> 1 <= a <= b ->
  Backoff.nextDelay p a <= Backoff.nextDelay p b.
Proof.
  intros Hmm Hab. unfold Backoff.nextDelay.
  assert (Hpow : 1 <= 2 ^ (a - 1) <= 2 ^ (b - 1)).
  { split.
    - change 1 with (2 ^ 0). apply Z.pow_le_mono_r; lia.
    - apply Z.pow_le_mono_r; lia. }
  destruct (Z.le_gt_cases 0 (MinBackoff p)) as [Hpos | Hneg].
  - apply clamp_mono. apply Z.mul_le_mono_nonneg_l; lia.
  - unfold Backoff.clamp. nia.
Qed.

(** C4: for a policy with [MinBackoff <= MaxBackoff] and attempts from 1
    on, the delay is the doubled minimum clamped to the two bounds: it
    is the doubled minimum while that is at most the maximum, and the
    maximum from there on; it lies between the bounds; it does not
    decrease with the attempt, and once it is the maximum it stays
    there. *)
Theorem nextDelay_clamped_doubling :
  forall p : RetryPolicy,
    MinBackoff p <= MaxBackoff p ->
    (forall attempt : Z, 1 <= attempt ->
       Backoff.nextDelay p attempt
       = Backoff.clamp (MinBackoff p * 2 ^ (attempt - 1)) (MinBackoff p) (MaxBackoff p) /\
       MinBackoff p <= Backoff.nextDelay p attempt <= MaxBackoff p /\
       (0 <= MinBackoff p -> MinBackoff p * 2 ^ (attempt - 1) <= MaxBackoff p ->
        Backoff.nextDelay p attempt = MinBackoff p * 2 ^ (attempt - 1)) /\
       (MaxBackoff p <= MinBackoff p * 2 ^ (attempt - 1) ->
        Backoff.nextDelay p attempt = MaxBackoff p)) /\
    (forall a b : Z, 1 <= a <= b ->
       Backoff.nextDelay p a <= Backoff.nextDelay p b) /\
    (forall a b : Z, 1 <= a <= b ->
       Backoff.nextDelay p a = MaxBackoff p ->
       Backoff.nextDelay p b = MaxBackoff p).
Proof.
  intros p Hmm. split; [| split].
  - intros attempt Ha. split; [reflexivity |].
    split; [apply clamp_bounds, Hmm |].
    assert (Hpow : 1 <= 2 ^ (attempt - 1)).
    { change 1 with (2 ^ 0). apply Z.pow_le_mono_r; lia. }
    unfold Backoff.nextDelay, Backoff.clamp. split.
    + intros Hpos Hle. nia.
    + intros Hge. lia.
  - intros a b Hab. apply nextDelay_mono; assumption.
  - intros a b Hab Ha.
    pose proof (nextDelay_mono p a b Hmm Hab) as Hle.
    pose proof (clamp_bounds (MinBackoff p * 2 ^ (b - 1)) _ _ Hmm) as Hb.
    unfold Backoff.nextDelay in *. lia.
Qed.

Lemma nextDelay_clamped_doubling_witness :
  Backoff.nextDelay (mkRetryPolicy (1 * Second) (8 * Second) 3) 1 = 1 * Second /\
  Backoff.nextDelay (mkRetryPolicy (1 * Second) (8 * Second) 3) 2
  <= Backoff.nextDelay (mkRetryPolicy (1 * Second) (8 * Second) 3) 3.
Proof.
  destruct (nextDelay_clamped_doubling (mkRetryPolicy (1 * Second) (8 * Second) 3))
    as (H1 & H2 & _).
  - vm_compute. discriminate.
  - split.
    + destruct (H1 1) as (_ & _ & H & _); [lia |].
      apply H; vm_compute; discriminate.
    + apply H2. lia.
Defined.

(** The scenario of the specification: 1 s, 8 s; the delays before the
    attempts 2, 3 and 4 are 1 s, 2 s and 4 s, then 8 s. *)
Example nextDelay_scenario :
  map (Backoff.nextDelay (mkRetryPolicy (1 * Second) (8 * Second) 3)) [1; 2; 3; 4; 5; 6]
  = [1 * Second; 2 * Second; 4 * Second; 8 * Second; 8 * Second; 8 * Second].
Proof. reflexivity. Qed.

(** * Further properties of the tracker, the callback, registration
      and shutdown *)

(** ** The tracker *)

(** No step unsets [armed] or reopens [done], in any tracker state. *)
Lemma step_latches (a : action) (p p' : pool) (r : result unit) :
  step a p = Some (p', r) ->
  (armed (trk p) = true -> armed (trk p') = true) /\
  (done (trk p) = ChanClosed -> done (trk p') = ChanClosed).
Proof.
  intros Hs. destruct p as [[v o d ar] w]. destruct a; simpl in Hs.
  - injection Hs as <- _. simpl. auto.
  - destruct (Dec_add_cases (mkTracker v o d ar)) as [[_ E] | [_ E]];
      rewrite E in Hs; injection Hs as <- _; simpl; auto.
  - destruct w as [| w]; [discriminate |].
    unfold Dec_zero, markDone, close_done in Hs; simpl in Hs.
    destruct ar, o, d; simpl in Hs; injection Hs as <- _; simpl; auto.
  - unfold ArmForShutdown, markDone, close_done, bind, modify, get, ret in Hs;
      simpl in Hs.
    destruct (v =? 0), o, d; simpl in Hs; injection Hs as <- _; simpl; auto.
Qed.

(** X1: in every schedule of tracker calls, from any tracker state: once
    armed the tracker stays armed, and once [done] is closed it stays
    closed and no later step closes it. *)
Theorem armed_and_done_latch :
  forall (sched : list action) (p q : pool) (r : result unit) (n : nat),
    exec sched p = Some (q, r, n) ->
    (armed (trk p) = true -> armed (trk q) = true) /\
    (Done (trk p) = ChanClosed -> Done (trk q) = ChanClosed /\ n = 0%nat).
Proof.
  unfold Done.
  induction sched as [| a rest IH]; intros p q r n He; simpl in He.
  - injection He as <- _ <-. auto.
  - destruct (step a p) as [[p' r'] |] eqn:Hs; [| discriminate].
    destruct (step_latches _ _ _ _ Hs) as [Ha Hd].
    assert (Hc : done (trk p) = ChanClosed -> closed_by (trk p) (trk p') = 0%nat).
    { intros H. unfold closed_by. rewrite H. reflexivity. }
    destruct r' as [[] | msg | code].
    + destruct (exec rest p') as [[[q' r''] n'] |] eqn:He'; [| discriminate].
      injection He as <- <- <-. destruct (IH _ _ _ _ He') as [Ha' Hd'].
      split; [auto |]. intros H. destruct (Hd' (Hd H)) as [-> ->].
      rewrite (Hc H). auto.
    + injection He as <- _ <-. split; [auto |]. intros H. auto.
    + injection He as <- _ <-. split; [auto |]. intros H. auto.
Qed.

Lemma armed_and_done_latch_witness :
  (armed (trk (mkPool (mkTracker 0 true ChanClosed true) 0)) = true ->
   armed (mkTracker 1 true ChanClosed true) = true) /\
  (Done (trk (mkPool (mkTracker 0 true ChanClosed true) 0)) = ChanClosed ->
   Done (mkTracker 1 true ChanClosed true) = ChanClosed /\ 0%nat = 0%nat).
Proof.
  apply (armed_and_done_latch [AInc; AInc; ADecAdd; AArm]
           (mkPool (mkTracker 0 true ChanClosed true) 0)
           (mkPool (mkTracker 1 true ChanClosed true) 0) (Ok tt) 0%nat).
  reflexivity.
Defined.

Lemma step_unarmed (a : action) (p p' : pool) (r : result unit) :
  a <> AArm -> step a p = Some (p', r) ->
  armed (trk p) = false ->
  armed (trk p') = false /\ done (trk p') = done (trk p) /\
  closeOnce (trk p') = closeOnce (trk p).
Proof.
  intros Hne Hs Har. destruct p as [[v o d ar] w]. simpl in Har. subst ar.
  destruct a; simpl in Hs; try contradiction.
  - injection Hs as <- _. simpl. auto.
  - destruct (Dec_add_cases (mkTracker v o d false)) as [[_ E] | [_ E]];
      rewrite E in Hs; injection Hs as <- _; simpl; auto.
  - destruct w as [| w]; [discriminate |].
    unfold Dec_zero in Hs; simpl in Hs. injection Hs as <- _. simpl. auto.
Qed.

(** X2: without a call of [ArmForShutdown] the signal never fires:
    whatever [Inc] and [Dec] calls are made on a fresh tracker, also
    when the counter comes back to zero, [done] stays open. *)
Theorem never_closed_unarmed :
  forall (sched : list action) (q : pool) (r : result unit) (n : nat),
    count_action AArm sched = 0%nat ->
    exec sched init_pool = Some (q, r, n) ->
    armed (trk q) = false /\ Done (trk q) = ChanOpen /\ n = 0%nat.
Proof.
  unfold Done.
  assert (G : forall (sched : list action) (p q : pool) (r : result unit) (n : nat),
    count_action AArm sched = 0%nat ->
    armed (trk p) = false -> done (trk p) = ChanOpen ->
    exec sched p = Some (q, r, n) ->
    armed (trk q) = false /\ done (trk q) = ChanOpen /\ n = 0%nat).
  { induction sched as [| a rest IH]; intros p q r n Hc Ha Hd He; simpl in He.
    - injection He as <- _ <-. auto.
    - assert (Hne : a <> AArm) by (intros ->; simpl in Hc; discriminate).
      assert (Hc' : count_action AArm rest = 0%nat)
        by (destruct a; simpl in Hc; congruence).
      destruct (step a p) as [[p' r'] |] eqn:Hs; [| discriminate].
      destruct (step_unarmed _ _ _ _ Hne Hs Ha) as (Ha' & Hd' & _).
      assert (Hz : closed_by (trk p) (trk p') = 0%nat).
      { unfold closed_by. rewrite Hd', Hd. reflexivity. }
      rewrite Hd in Hd'.
      destruct r' as [[] | msg | code].
      + destruct (exec rest p') as [[[q' r''] n'] |] eqn:He'; [| discriminate].
        injection He as <- <- <-.
        destruct (IH _ _ _ _ Hc' Ha' Hd' He') as (? & ? & ->).
        rewrite Hz. auto.
      + injection He as <- _ <-. auto.
      + injection He as <- _ <-. auto. }
  intros sched q r n Hc He. apply (G sched init_pool q r n Hc); auto.
Qed.

Lemma never_closed_unarmed_witness :
  armed (trk (mkPool (mkTracker 0 false ChanOpen false) 0)) = false /\
  Done (trk (mkPool (mkTracker 0 false ChanOpen false) 0)) = ChanOpen /\
  0%nat = 0%nat.
Proof.
  apply (never_closed_unarmed [AInc; ADecAdd; ADecZero; AInc; ADecAdd; ADecZero]
           (mkPool (mkTracker 0 false ChanOpen false) 0) (Ok tt) 0%nat).
  - reflexivity.
  - reflexivity.
Defined.

(** A step that returns moves a counter of [0, int64_max) by exactly
    what the step is: one up for [Inc], one down for the first part of
    [Dec], nothing else. *)
Lemma step_exact (a : action) (p p' : pool) :
  0 <= active (trk p) < int64_max ->
  step a p = Some (p', Ok tt) ->
  active (trk p') = active (trk p) + delta a /\ 0 <= active (trk p').
Proof.
  intros Hr Hs. destruct a; simpl in Hs.
  - injection Hs as <-. simpl. unfold AddInt64.
    rewrite int64_wrap_id; unfold int64_min, int64_max in *; lia.
  - destruct (Dec_add_cases (trk p)) as [[_ E] | [Hv E]]; rewrite E in Hs;
      [discriminate |].
    injection Hs as <-. simpl. unfold AddInt64 in *.
    rewrite int64_wrap_id in *; unfold int64_min, int64_max in *; lia.
  - destruct (waiting p); [discriminate |].
    destruct (trk p) as [v o d ar]; unfold Dec_zero, markDone, close_done in Hs;
      simpl in *.
    destruct ar, o, d; simpl in Hs; try discriminate;
      injection Hs as <-; simpl; lia.
  - destruct (trk p) as [v o d ar];
      unfold ArmForShutdown, markDone, close_done, bind, modify, get, ret in Hs;
      simpl in *.
    destruct (v =? 0), o, d; simpl in Hs; try discriminate;
      injection Hs as <-; simpl; lia.
Qed.

Lemma exec_counts (sched : list action) :
  forall (p q : pool) (n : nat),
    0 <= active (trk p) ->
    active (trk p) + Z.of_nat (length sched) <= int64_max ->
    exec sched p = Some (q, Ok tt, n) ->
    active (trk q)
    = active (trk p) + Z.of_nat (count_action AInc sched)
      - Z.of_nat (count_action ADecAdd sched) /\
    forall k : nat,
      Z.of_nat (count_action ADecAdd (take k sched))
      <= active (trk p) + Z.of_nat (count_action AInc (take k sched)).
Proof.
  induction sched as [| a rest IH]; intros p q n H0 Hlen He; simpl in He.
  - injection He as <- _. simpl. split; [lia |]. intros k.
    destruct k; simpl; lia.
  - rewrite length_cons, Nat2Z.inj_succ in Hlen.
    destruct (step a p) as [[p' r'] |] eqn:Hs; [| discriminate].
    destruct r' as [[] | msg | code]; try discriminate.
    destruct (exec rest p') as [[[q' r''] n'] |] eqn:He'; [| discriminate].
    injection He as <- -> _.
    destruct (step_exact a p p' ltac:(lia) Hs) as [Hd H0'].
    destruct (IH p' q' n' H0' ltac:(destruct a; simpl in Hd; lia) He')
      as [Hq Hpre].
    split.
    + rewrite Hq, Hd. destruct a; simpl; lia.
    + intros k. destruct k as [| k]; [simpl; lia |].
      specialize (Hpre k). rewrite Hd in Hpre.
      destruct a; simpl in *; lia.
Qed.

(** X3: in every run that does not panic (any schedule on a fresh
    tracker, at most [int64_max] steps) the counter is the number of
    [Inc] calls minus the number of [Dec] calls made so far: the number
    of deliveries in flight. *)
Theorem active_counts_in_flight :
  forall (sched : list action) (q : pool) (n : nat),
    Z.of_nat (length sched) <= int64_max ->
    exec sched init_pool = Some (q, Ok tt, n) ->
    active (trk q)
    = Z.of_nat (count_action AInc sched) - Z.of_nat (count_action ADecAdd sched).
Proof.
  intros sched q n Hlen He.
  destruct (exec_counts sched init_pool q n) as [H _]; simpl; try lia; auto.
Qed.

Lemma active_counts_in_flight_witness :
  active (trk (mkPool (mkTracker 2 false ChanOpen true) 0))
  = Z.of_nat (count_action AInc [AInc; AInc; AArm; AInc; ADecAdd])
    - Z.of_nat (count_action ADecAdd [AInc; AInc; AArm; AInc; ADecAdd]).
Proof.
  apply (active_counts_in_flight [AInc; AInc; AArm; AInc; ADecAdd] _ 0%nat).
  - simpl. unfold int64_max. lia.
  - reflexivity.
Defined.

(** X4: a run panics exactly when some [Dec] comes without an [Inc]
    before it: for a schedule that can be carried out on a fresh
    tracker (at most [int64_max] steps), no call panics if and only if
    every prefix has at least as many [Inc] as [Dec]. *)
Theorem panic_iff_unmatched :
  forall (sched : list action) (q : pool) (r : result unit) (n : nat),
    Z.of_nat (length sched) <= int64_max ->
    exec sched init_pool = Some (q, r, n) ->
    (r = Ok tt <-> matched sched).
Proof.
  intros sched q r n Hlen He. split.
  - intros ->. intros k.
    destruct (exec_counts sched init_pool q n) as [_ H]; simpl; try lia; auto.
    specialize (H k). simpl in H. lia.
  - intros Hm.
    destruct (exec_matched sched init_pool q r n live_init) as (-> & _);
      simpl; try lia; auto.
    intros k. specialize (Hm k). lia.
Qed.

Lemma panic_iff_unmatched_witness :
  Panicked "outstandingMessageTracker: active < 0" = Ok tt
  <-> matched [AInc; ADecAdd; ADecZero; ADecAdd; AInc].
Proof.
  apply (panic_iff_unmatched [AInc; ADecAdd; ADecZero; ADecAdd; AInc]
           (mkPool (mkTracker (-1) false ChanOpen false) 0) _ 0%nat).
  - simpl. unfold int64_max. lia.
  - reflexivity.
Defined.

Lemma run_app (l1 l2 : list op) (t : outstandingMessageTracker) :
  run (l1 ++ l2) t =
  match run l1 t with
  | (t', Ok _) => run l2 t'
  | (t', Panicked msg) => (t', Panicked msg)
  | (t', Exited code) => (t', Exited code)
  end.
Proof.
  revert t. induction l1 as [| o l1 IH]; intros t; [reflexivity |].
  simpl app. rewrite !run_cons.
  destruct (call o t) as [t' [[] | msg | code]]; auto.
Qed.

Lemma run_Inc_replicate (k : nat) :
  forall (a : Z) (o : bool) (d : chan) (ar : bool),
    0 <= a -> a + Z.of_nat k <= int64_max ->
    run (replicate k OpInc) (mkTracker a o d ar)
    = (mkTracker (a + Z.of_nat k) o d ar, Ok tt).
Proof.
  induction k as [| k IH]; intros a o d ar H0 Hmax.
  - simpl. unfold ret. rewrite Z.add_0_r. reflexivity.
  - change (replicate (S k) OpInc) with (OpInc :: replicate k OpInc).
    rewrite run_cons. cbn [call]. unfold Inc, modify, set_active. cbn [active closeOnce done armed].
    unfold AddInt64. rewrite int64_wrap_id by (unfold int64_min, int64_max in *; lia).
    rewrite IH by lia. do 2 f_equal. lia.
Qed.

Lemma Dec_armed_open (a : Z) :
  0 < a <= int64_max ->
  Dec (mkTracker a false ChanOpen true)
  = (if a =? 1 then mkTracker 0 true ChanClosed true
     else mkTracker (a - 1) false ChanOpen true, Ok tt).
Proof.
  intros Ha. unfold Dec, bind, Dec_add. cbn [active].
  unfold AddInt64. rewrite int64_wrap_id by (unfold int64_min, int64_max in *; lia).
  replace (a + -1) with (a - 1) by lia.
  destruct (Z.ltb_spec (a - 1) 0); [lia |].
  destruct (Z.eqb_spec (a - 1) 0) as [Hz | Hz];
    destruct (Z.eqb_spec a 1); try lia.
  - rewrite Hz. reflexivity.
  - reflexivity.
Qed.

Lemma run_Dec_replicate (j : nat) :
  forall a : Z,
    0 < a <= int64_max -> Z.of_nat j <= a ->
    run (replicate j OpDec) (mkTracker a false ChanOpen true)
    = (if Z.of_nat j =? a then mkTracker 0 true ChanClosed true
       else mkTracker (a - Z.of_nat j) false ChanOpen true, Ok tt).
Proof.
  induction j as [| j IH]; intros a Ha Hj.
  - cbn [replicate run]. unfold ret. change (Z.of_nat 0) with 0.
    destruct (Z.eqb_spec 0 a); [lia |].
    rewrite Z.sub_0_r. reflexivity.
  - change (replicate (S j) OpDec) with (OpDec :: replicate j OpDec).
    rewrite run_cons. cbn [call]. rewrite Dec_armed_open by exact Ha.
    rewrite Nat2Z.inj_succ in *.
    destruct (Z.eqb_spec a 1) as [-> | Hne].
    + assert (j = 0%nat) by lia. subst j. reflexivity.
    + rewrite IH by lia.
      destruct (Z.eqb_spec (Z.of_nat j) (a - 1));
        destruct (Z.eqb_spec (Z.succ (Z.of_nat j)) a); try lia; [reflexivity |].
      do 2 f_equal. lia.
Qed.

(** X5: with [k] deliveries in flight when [ArmForShutdown] is called
    ([k] increments, then the arming, then [j] decrements, one call
    after the other on a fresh tracker), the arming does not close
    [done], no call panics, the counter is [k - j], and [done] is closed
    exactly when the last of the [k] decrements has been made. *)
Theorem drain_closes_at_last_Dec :
  forall k j : nat,
    (0 < k)%nat -> Z.of_nat k <= int64_max -> (j <= k)%nat ->
    exists t,
      run (replicate k OpInc ++ OpArm :: replicate j OpDec)
          newOutstandingMessageTracker = (t, Ok tt) /\
      active t = Z.of_nat k - Z.of_nat j /\
      armed t = true /\
      (Done t = ChanClosed <-> j = k).
Proof.
  intros k j Hk Hmax Hj.
  rewrite run_app. unfold newOutstandingMessageTracker.
  rewrite run_Inc_replicate by lia. rewrite Z.add_0_l. rewrite run_cons.
  cbn [call]. unfold ArmForShutdown, bind, modify, get, set_armed.
  cbn [active closeOnce done armed].
  destruct (Z.eqb_spec (Z.of_nat k) 0); [lia |]. unfold ret.
  rewrite run_Dec_replicate by lia.
  destruct (Z.eqb_spec (Z.of_nat j) (Z.of_nat k)) as [He | He].
  - eexists. split; [reflexivity |]. simpl. split; [lia |]. split; [reflexivity |].
    split; [intros _; lia | reflexivity].
  - eexists. split; [reflexivity |]. simpl. split; [lia |]. split; [reflexivity |].
    split; [discriminate | intros ->; lia].
Qed.

Lemma drain_closes_at_last_Dec_witness :
  exists t,
    run (replicate 3 OpInc ++ OpArm :: replicate 2 OpDec)
        newOutstandingMessageTracker = (t, Ok tt) /\
    active t = Z.of_nat 3 - Z.of_nat 2 /\
    armed t = true /\
    (Done t = ChanClosed <-> 2%nat = 3%nat).
Proof.
  apply (drain_closes_at_last_Dec 3 2).
  - lia.
  - simpl. unfold int64_max. lia.
  - lia.
Defined.

(** One [Inc] and one [Dec] give back the tracker they started from,
    unless it is armed at zero with [done] still open. *)
Lemma Inc_Dec_round_trip (t : outstandingMessageTracker) :
  wf t -> 0 <= active t <= int64_max ->
  armed t = false \/ active t <> 0 \/ done t = ChanClosed ->
  Dec (fst (Inc t)) = (t, Ok tt).
Proof.
  intros [H1 H2] Hr Hc. destruct t as [a o d ar]. simpl in *.
  unfold Dec, bind, Dec_add, Inc, modify, set_active. cbn [fst active closeOnce done armed].
  assert (Ev : AddInt64 (AddInt64 a 1) (-1) = a).
  { destruct (Z.eq_dec a int64_max) as [-> | Hne].
    - vm_compute. reflexivity.
    - unfold AddInt64. rewrite (int64_wrap_id (a + 1))
        by (unfold int64_min, int64_max in *; lia).
      rewrite int64_wrap_id by (unfold int64_min, int64_max in *; lia). lia. }
  rewrite Ev. destruct (Z.ltb_spec a 0); [lia |].
  destruct (Z.eqb_spec a 0) as [-> | Hne]; [| reflexivity].
  unfold Dec_zero, markDone, close_done. cbn [active closeOnce done armed].
  destruct ar; [| reflexivity]. destruct d; simpl in *.
  - destruct Hc as [Hc | [Hc | Hc]]; try discriminate. contradiction.
  - subst o. reflexivity.
Qed.

(** ** The callback *)

Section DeliveryRoundTrip.

Context {T : Type}.
Variable UnmarshalMessage :
  gmap string string -> list Byte.byte -> T + error.

(** X6: a delivery leaves the manager as it found it, whatever the
    handler does: the counter, the flags of the tracker, the context and
    the configuration are the same after the callback as before (only
    calls to collaborators were added).  The tracker is one reached from
    a fresh one; the one exception left out is a tracker armed at zero
    whose [done] is still open, which the [Dec] of the delivery
    closes. *)
Theorem deliver_restores_manager :
  forall (c : Closure T) (msgID : string) (publishTime attempt : Z)
         (attrs : gmap string string) (data : list Byte.byte) (w : World T)
         (t : outstandingMessageTracker),
    outstanding (manager w) = Some t -> tracked t ->
    armed t = false \/ active t <> 0 \/ done t = ChanClosed ->
    exists (w' : World T) (r : option error),
      deliver UnmarshalMessage c msgID publishTime attempt attrs data w
        = (w', Ok r) /\
      manager w' = manager w.
Proof.
  intros c msgID publishTime attempt attrs data w t Ho Ht Hc.
  destruct (deliver_spec UnmarshalMessage c msgID publishTime attempt attrs data
              w t Ho Ht) as (evs & r & t' & E & ED & _).
  destruct (tracked_valid t Ht) as [Hwf Hr].
  rewrite (Inc_Dec_round_trip t Hwf Hr Hc) in ED. injection ED as <-.
  eexists _, r. split; [exact E |].
  destruct w as [[cd cf rq o] evs0]. simpl in *. subst o. reflexivity.
Qed.

End DeliveryRoundTrip.

Lemma deliver_restores_manager_witness :
  exists (w' : World string) (r : option error),
    deliver (fun _ _ => inl "hello") (sample_closure (fun _ => Panics "boom"))
      "id-1" 0 1 ∅ [] (sample_world false (Some newOutstandingMessageTracker))
      = (w', Ok r) /\
    manager w' = manager (sample_world false (Some newOutstandingMessageTracker)).
Proof.
  apply (deliver_restores_manager (fun _ _ => inl "hello")
           (sample_closure (fun _ => Panics "boom")) "id-1" 0 1 ∅ []
           (sample_world false (Some newOutstandingMessageTracker))
           newOutstandingMessageTracker).
  - reflexivity.
  - exists [], 0%nat, 0%nat. split; [unfold int64_max; simpl; lia | reflexivity].
  - left. reflexivity.
Defined.

Section DeliveryCalls.

Context {T : Type}.
Variable UnmarshalMessage :
  gmap string string -> list Byte.byte -> T + error.

(** The callback around a body of which the events and the result are
    known. *)
Lemma deliver_around_body (c : Closure T) (msgID : string) (publishTime attempt : Z)
    (attrs : gmap string string) (data : list Byte.byte) (w : World T)
    (t : outstandingMessageTracker) (evs : list (Event T)) (r : option error) :
  outstanding (manager w) = Some t -> tracked t ->
  (forall w0 : World T,
     cfg (manager w0) = cfg (manager w) -> rt (manager w0) = rt (manager w) ->
     deliver_body UnmarshalMessage c msgID publishTime attempt attrs data w0
     = (mkWorld (manager w0) (events w0 ++ evs), Ok r)) ->
  exists t',
    deliver UnmarshalMessage c msgID publishTime attempt attrs data w
    = (mkWorld (mkManager (ctxDone (manager w)) (cfg (manager w))
                  (rt (manager w)) (Some t'))
               (events w ++ op_begin w ++ evs ++ op_finish w), Ok r) /\
    Dec (fst (Inc t)) = (t', Ok tt).
Proof.
  intros Ho Ht Hbody. destruct (Dec_after_Inc t Ht) as (t' & ED & _).
  exists t'. split; [| exact ED].
  destruct w as [[cd cf rq o] evs0]. simpl in Ho. subst o.
  unfold deliver, op_begin, op_finish. unfold bind at 1. unfold on_outstanding at 1.
  cbn [manager outstanding events ctxDone cfg rt]. unfold Inc at 1, modify at 1.
  unfold Inc, modify in ED. cbn [fst] in ED.
  set (t1 := set_active (AddInt64 (active t) 1) t) in *.
  unfold with_defer at 1. unfold bind at 1, get at 1.
  cbn [manager outstanding events ctxDone cfg rt].
  destruct (Testing (static cf)) eqn:Htest; cbn [negb].
  - rewrite Hbody by reflexivity. unfold on_outstanding.
    cbn [manager outstanding events ctxDone cfg rt].
    rewrite ED, app_nil_r. reflexivity.
  - unfold bind at 1. rewrite emit_run. unfold with_defer at 1.
    rewrite Hbody by reflexivity. rewrite emit_run. unfold on_outstanding.
    cbn [manager outstanding events ctxDone cfg rt].
    rewrite ED, <- !List.app_assoc. reflexivity.
Qed.

(** X7: when the message decodes, the calls of a delivery are, in this
    order: outside tests the begin of the operation; the begin of the
    request, with a request of type [PubSubMessage] that names topic,
    subscription, message id, attempt and publish time, has the data as
    its only input and no user id and no auth data; the begin of the
    trace when the request has one; the handler, once, on the decoded
    message; the end of the trace, with the error the callback returns;
    the end of the request; outside tests the end of the operation.
    This holds whether the handler returns nil, returns an error or
    panics. *)
Theorem deliver_calls_in_order :
  forall (c : Closure T) (msgID : string) (publishTime attempt : Z)
         (attrs : gmap string string) (data : list Byte.byte) (w : World T)
         (t : outstandingMessageTracker) (msg : T),
    outstanding (manager w) = Some t -> tracked t ->
    UnmarshalMessage attrs data = inl msg ->
    exists (w' : World T) (r : option error),
      deliver UnmarshalMessage c msgID publishTime attempt attrs data w
        = (w', Ok r) /\
      let req :=
        mkRequest PubSubMessage (Service (cl_staticCfg c))
          (mkPubSubMsgData (EncoreName (cl_topic c))
             (sub_EncoreName (cl_subscription c)) msgID attempt publishTime)
          [data] (TraceIdx (cl_staticCfg c)) (Tracing (cfg (manager w)))
          "" None 0 in
      events w'
      = (events w ++ op_begin w ++
         [EvBeginRequest req] ++
         (if currTrace (rt (manager w)) then [EvTraceBeginRequest req] else []) ++
         [EvHandler msg] ++
         (if currTrace (rt (manager w)) then [EvTraceFinishRequest req r] else []) ++
         [EvFinishRequest] ++ op_finish w)%list.
Proof.
  intros c msgID publishTime attempt attrs data w t msg Ho Ht Hm.
  set (r := match Handler (cl_subscriptionCfg c) msg with
            | Returns err => err
            | Panics payload =>
                Some (ErrsError Internal ("subscriber panicked: " ++ payload) None)
            | PanicsNil => None
            end).
  set (req :=
        mkRequest PubSubMessage (Service (cl_staticCfg c))
          (mkPubSubMsgData (EncoreName (cl_topic c))
             (sub_EncoreName (cl_subscription c)) msgID attempt publishTime)
          [data] (TraceIdx (cl_staticCfg c)) (Tracing (cfg (manager w)))
          "" None 0).
  set (evs := ([EvBeginRequest req] ++
         (if currTrace (rt (manager w)) then [EvTraceBeginRequest req] else []) ++
         [EvHandler msg] ++
         (if currTrace (rt (manager w)) then [EvTraceFinishRequest req r] else []) ++
         [EvFinishRequest])%list).
  assert (Hbody : forall w0 : World T,
     cfg (manager w0) = cfg (manager w) -> rt (manager w0) = rt (manager w) ->
     deliver_body UnmarshalMessage c msgID publishTime attempt attrs data w0
     = (mkWorld (manager w0) (events w0 ++ evs), Ok r)).
  { intros w0 Hcfg Hrt. unfold deliver_body. rewrite Hm.
    unfold bind, get, panicCatchWrapper, call_handler, recover, bind, ret, emit,
      modify.
    destruct w0 as [m evs0]. simpl in Hcfg, Hrt. simpl. rewrite Hcfg, Hrt.
    unfold evs, r, req.
    destruct (currTrace (rt (manager w))),
      (Handler (cl_subscriptionCfg c) msg) as [err | payload |];
      simpl; rewrite <- !List.app_assoc; reflexivity. }
  destruct (deliver_around_body c msgID publishTime attempt attrs data w t evs r
              Ho Ht Hbody) as (t' & E & _).
  eexists _, r. split; [exact E |]. simpl. unfold evs.
  destruct (currTrace (rt (manager w))); reflexivity.
Qed.

(** X8: on a manager whose tracker pointer is nil, as [NewManager]
    leaves it, every delivery panics on the nil pointer at [Inc]:
    nothing is decoded or logged, the handler is not called and the
    backend gets no result. *)
Theorem deliver_after_NewManager_panics :
  forall (c : Closure T) (msgID : string) (publishTime attempt : Z)
         (attrs : gmap string string) (data : list Byte.byte)
         (cfg : Config) (rt : RequestTracker) (evs : list (Event T)),
    deliver UnmarshalMessage c msgID publishTime attempt attrs data
      (mkWorld (NewManager cfg rt) evs)
    = (mkWorld (NewManager cfg rt) evs,
       Panicked "runtime error: invalid memory address or nil pointer dereference").
Proof. reflexivity. Qed.

End DeliveryCalls.

Lemma deliver_calls_in_order_witness :
  exists (w' : World string) (r : option error),
    deliver (fun _ _ => inl "hello") (sample_closure (fun _ => Returns (Some (PlainError "no"))))
      "id-1" 5 2 ∅ [] (sample_world false (Some newOutstandingMessageTracker))
      = (w', Ok r) /\
    events w'
    = [EvBeginOperation;
       EvBeginRequest
         (mkRequest PubSubMessage "shop"
            (mkPubSubMsgData "orders" "mailer" "id-1" 2 5) [[]] 7 false "" None 0);
       EvTraceBeginRequest
         (mkRequest PubSubMessage "shop"
            (mkPubSubMsgData "orders" "mailer" "id-1" 2 5) [[]] 7 false "" None 0);
       EvHandler "hello";
       EvTraceFinishRequest
         (mkRequest PubSubMessage "shop"
            (mkPubSubMsgData "orders" "mailer" "id-1" 2 5) [[]] 7 false "" None 0) r;
       EvFinishRequest;
       EvFinishOperation].
Proof.
  apply (deliver_calls_in_order (fun _ _ => inl "hello")
           (sample_closure (fun _ => Returns (Some (PlainError "no"))))
           "id-1" 5 2 ∅ []
           (sample_world false (Some newOutstandingMessageTracker))
           newOutstandingMessageTracker "hello").
  - reflexivity.
  - exists [], 0%nat, 0%nat. split; [unfold int64_max; simpl; lia | reflexivity].
  - reflexivity.
Defined.

(** ** Registration *)

Section RegistrationMore.

Context {T : Type}.

Ltac run_registration :=
  unfold NewSubscription, getSubscriptionConfig, Fatal, bind, get, emit, modify,
    ret, panic, exit; simpl.

(** [NewSubscription] reads the manager and nothing else of the store,
    leaves the manager as it is and adds events; when it does not
    return, what it added is nothing or the one fatal log line. *)
Lemma NewSubscription_frame (t : Topic) (name : string)
    (scfg : SubscriptionConfig T) (m : Manager) :
  exists (evs : list (Event T)) (r : result Subscription),
    (forall evs0 : list (Event T),
       NewSubscription t name scfg (mkWorld m evs0)
       = (mkWorld m (evs0 ++ evs), r)) /\
    (fatal r -> evs = [] \/ exists text, evs = [EvLogFatal text]).
Proof.
  unfold NewSubscription.
  destruct (topicCfg t) as [tc |] eqn:Htc;
    [| exists [], (Panicked "pubsub topic was not created using pubsub.NewTopic");
       split; [intros; unfold panic; rewrite app_nil_r; reflexivity | auto]].
  destruct (is_nil (topic t) || is_nil (mgr t));
    [exists [], (Panicked "pubsub topic was not created using pubsub.NewTopic");
     split; [intros; unfold panic; rewrite app_nil_r; reflexivity | auto] |].
  destruct (effective_policy (cfg_RetryPolicy scfg)) as [msg | policy];
    [exists [], (Panicked msg);
     split; [intros; unfold panic; rewrite app_nil_r; reflexivity | auto] |].
  unfold getSubscriptionConfig, Fatal, bind, get, emit, modify, ret, panic, exit.
  cbn [manager events]. rewrite Htc.
  destruct (Testing (static (cfg m))) eqn:Ht; cbn [negb].
  - eexists [_], _. split; [intros; simpl; rewrite ?Ht; reflexivity | intros []].
  - destruct (Subscriptions tc !! name) as [sub |];
      [| eexists [_], _; split; [intros; reflexivity | eauto]].
    destruct (PubsubTopics (static (cfg m)) !! EncoreName tc) as [stopic |];
      [| exists [], (Panicked nil_deref);
         split; [intros; rewrite app_nil_r; reflexivity | auto]].
    destruct (static_Subscriptions stopic !! name) as [ssub |];
      [| eexists [_], _; split; [intros; reflexivity | eauto]].
    eexists [_; _], _.
    split; [intros evs0; simpl; rewrite ?Ht; simpl; rewrite <- List.app_assoc;
            reflexivity | intros []].
Qed.

(** X9: a registration that does not return has not subscribed: the
    manager is as it was, and the calls made are none or the single
    fatal log line; [Subscribe] was not called and no "registered
    subscription" line was written. *)
Theorem failed_registration_subscribes_nothing :
  forall (t : Topic) (name : string) (scfg : SubscriptionConfig T)
         (w w' : World T) (r : result Subscription),
    NewSubscription t name scfg w = (w', r) -> fatal r ->
    manager w' = manager w /\
    (events w' = events w \/
     exists text, events w' = (events w ++ [EvLogFatal text])%list).
Proof.
  intros t name scfg [m evs0] w' r E Hf.
  destruct (NewSubscription_frame t name scfg m) as (evs & r0 & Hrun & Hfatal).
  rewrite Hrun in E. injection E as <- <-. simpl. split; [reflexivity |].
  destruct (Hfatal Hf) as [-> | [text ->]].
  - left. apply app_nil_r.
  - right. eauto.
Qed.

(** X10: registrations do not see each other: a registration that
    returned returns again when the same call is repeated on the store
    it left, and subscribes a second time with the same calls; a name
    already registered is not refused. *)
Theorem registration_repeats :
  forall (t : Topic) (name : string) (scfg : SubscriptionConfig T)
         (w w1 : World T) (s : Subscription),
    NewSubscription t name scfg w = (w1, Ok s) ->
    exists evs : list (Event T),
      events w1 = (events w ++ evs)%list /\
      NewSubscription t name scfg w1
      = (mkWorld (manager w) (events w1 ++ evs), Ok s).
Proof.
  intros t name scfg [m evs0] w1 s E.
  destruct (NewSubscription_frame t name scfg m) as (evs & r0 & Hrun & _).
  rewrite Hrun in E. injection E as <- <-. exists evs. simpl.
  split; [reflexivity |]. apply Hrun.
Qed.

(** X11: under test ([Static.Testing]) a registration on a topic made by
    [NewTopic], with no negative bound, returns for every name, declared
    or not and of any form: the configuration is not looked up.  The
    one call made is [Subscribe], with a subscription that carries the
    name and a logger whose service is [TestService]; no line is
    logged. *)
Theorem registration_under_test :
  forall (t : Topic) (tc : PubsubTopic) (name : string)
         (scfg : SubscriptionConfig T) (w : World T),
    topicCfg t = Some tc -> topic t = Ref -> mgr t = Ref ->
    ~ negative_bound scfg ->
    Testing (static (cfg (manager w))) = true ->
    NewSubscription t name scfg w
    = (mkWorld (manager w)
         (events w ++
          [EvSubscribe
             (mkLogger (TestService (static (cfg (manager w)))) (EncoreName tc) name)
             match cfg_RetryPolicy scfg with
             | None => mkRetryPolicy (10 * Second) (10 * Minute) 100
             | Some p => with_defaults p
             end
             (mkPubsubSubscription name)]),
       Ok (mkSubscription Ref)).
Proof.
  intros t tc name scfg w Htc Htop Hmgr Hneg Ht.
  destruct (effective_policy_cases scfg) as [(Hn & _) | (_ & E)]; [contradiction |].
  run_registration.
  repeat progress (simpl; rewrite ?Htc, ?Htop, ?Hmgr, ?E, ?Ht). reflexivity.
Qed.

(** X12: outside tests a registration of a declared name returns what
    the configuration holds: [Subscribe] gets the subscription stored
    under the name in the topic's runtime configuration and a logger
    with the service stored under the name in the static configuration,
    and after it the line "registered subscription" is logged. *)
Theorem registration_of_declared :
  forall (t : Topic) (tc : PubsubTopic) (name : string)
         (scfg : SubscriptionConfig T) (w : World T)
         (sub : PubsubSubscription) (stopic : StaticPubsubTopic)
         (ssub : StaticPubsubSubscription),
    topicCfg t = Some tc -> topic t = Ref -> mgr t = Ref ->
    ~ negative_bound scfg ->
    Testing (static (cfg (manager w))) = false ->
    Subscriptions tc !! name = Some sub ->
    PubsubTopics (static (cfg (manager w))) !! EncoreName tc = Some stopic ->
    static_Subscriptions stopic !! name = Some ssub ->
    NewSubscription t name scfg w
    = (mkWorld (manager w)
         (events w ++
          [EvSubscribe (mkLogger (Service ssub) (EncoreName tc) name)
             match cfg_RetryPolicy scfg with
             | None => mkRetryPolicy (10 * Second) (10 * Minute) 100
             | Some p => with_defaults p
             end
             sub;
           EvLogInfo (mkLogger (Service ssub) (EncoreName tc) name)
             "registered subscription"]),
       Ok (mkSubscription Ref)).
Proof.
  intros t tc name scfg w sub stopic ssub Htc Htop Hmgr Hneg Ht H1 H2 H3.
  destruct (effective_policy_cases scfg) as [(Hn & _) | (_ & E)]; [contradiction |].
  run_registration.
  repeat progress (simpl; rewrite ?Htc, ?Htop, ?Hmgr, ?E, ?Ht, ?H1, ?H2, ?H3).
  rewrite <- List.app_assoc. reflexivity.
Qed.

(** X13: outside tests, a name the topic's runtime configuration does
    not hold ends the process with status 1 after one fatal log line
    that names the topic and the subscription; so does a name the
    runtime configuration holds and the topic's static configuration
    does not. *)
Theorem registration_of_undeclared_exits :
  forall (t : Topic) (tc : PubsubTopic) (name : string)
         (scfg : SubscriptionConfig T) (w : World T),
    topicCfg t = Some tc -> topic t = Ref -> mgr t = Ref ->
    ~ negative_bound scfg ->
    Testing (static (cfg (manager w))) = false ->
    Subscriptions tc !! name = None \/
    (exists sub stopic,
       Subscriptions tc !! name = Some sub /\
       PubsubTopics (static (cfg (manager w))) !! EncoreName tc = Some stopic /\
       static_Subscriptions stopic !! name = None) ->
    NewSubscription t name scfg w
    = (mkWorld (manager w)
         (events w ++
          [EvLogFatal ("unregistered/unknown subscription on topic "
                       ++ EncoreName tc ++ ": " ++ name)]),
       Exited 1).
Proof.
  intros t tc name scfg w Htc Htop Hmgr Hneg Ht Hund.
  destruct (effective_policy_cases scfg) as [(Hn & _) | (_ & E)]; [contradiction |].
  run_registration.
  destruct Hund as [H1 | (sub & stopic & H1 & H2 & H3)];
    repeat progress (simpl; rewrite ?Htc, ?Htop, ?Hmgr, ?E, ?Ht, ?H1, ?H2, ?H3);
    reflexivity.
Qed.

(** X14: the checks of [NewSubscription] come in a fixed order and none
    of them changes the store: a topic not made by [NewTopic] panics
    with the topic message whatever the retry policy is; on a good
    topic a negative [MinBackoff] panics with "MinRetryDelay cannot be
    negative" also when [MaxBackoff] is negative too, and a negative
    [MaxBackoff] alone with "MaxRetryDelay cannot be negative"; all
    before the configuration is looked up. *)
Theorem registration_check_order :
  forall (t : Topic) (name : string) (scfg : SubscriptionConfig T) (w : World T),
    (~ created_by_NewTopic t ->
     NewSubscription t name scfg w
     = (w, Panicked "pubsub topic was not created using pubsub.NewTopic")) /\
    (created_by_NewTopic t ->
     forall p, cfg_RetryPolicy scfg = Some p ->
       (MinBackoff p < 0 ->
        NewSubscription t name scfg w
        = (w, Panicked "MinRetryDelay cannot be negative")) /\
       (0 <= MinBackoff p -> MaxBackoff p < 0 ->
        NewSubscription t name scfg w
        = (w, Panicked "MaxRetryDelay cannot be negative"))).
Proof.
  intros t name scfg w. split.
  - intros Hn. unfold NewSubscription, panic.
    destruct (topicCfg t) as [tc |] eqn:Htc; [| reflexivity].
    destruct (topic t) eqn:Htop; [reflexivity |].
    destruct (mgr t) eqn:Hmgr; [reflexivity |].
    exfalso. apply Hn. repeat split; auto. congruence.
  - intros (Htc & Htop & Hmgr) p Hp.
    destruct (topicCfg t) as [tc |] eqn:Htc'; [| contradiction].
    unfold NewSubscription, panic, effective_policy.
    rewrite Htc', Htop, Hmgr, Hp. simpl. split.
    + intros Hm. apply Z.ltb_lt in Hm. rewrite Hm. reflexivity.
    + intros Hm Hx. apply Z.ltb_ge in Hm. apply Z.ltb_lt in Hx.
      rewrite Hm, Hx. reflexivity.
Qed.

(** X15: the two bounds are not compared with each other: a policy
    without negative bounds whose maximum, after the default, lies below
    its minimum (given that way, or a minimum above 10 min with the
    maximum left unset) is registered all the same, and [Subscribe]
    gets it with the maximum below the minimum. *)
Theorem registration_accepts_max_below_min :
  forall (t : Topic) (tc : PubsubTopic) (name : string)
         (scfg : SubscriptionConfig T) (w : World T) (p : RetryPolicy),
    topicCfg t = Some tc -> topic t = Ref -> mgr t = Ref ->
    (Testing (static (cfg (manager w))) = false -> declared w t name) ->
    cfg_RetryPolicy scfg = Some p ->
    0 <= MaxBackoff p ->
    (if MaxBackoff p =? 0 then 10 * Minute else MaxBackoff p) < MinBackoff p ->
    exists log sub tail,
      NewSubscription t name scfg w
      = (mkWorld (manager w)
           (events w ++
            EvSubscribe log
              (mkRetryPolicy (MinBackoff p)
                 (if MaxBackoff p =? 0 then 10 * Minute else MaxBackoff p)
                 (MaxRetries p))
              sub :: tail),
         Ok (mkSubscription Ref)).
Proof.
  intros t tc name scfg w p Htc Htop Hmgr Hdecl Hp Hx Hlt.
  assert (Hm : 0 < MinBackoff p).
  { destruct (Z.eqb_spec (MaxBackoff p) 0); unfold Minute, Second in *; lia. }
  destruct (NewSubscription_cases t tc name scfg w Htc Htop Hmgr)
    as [(_ & [Hneg | (Ht & Hnd)]) | (_ & _ & log & sub & tail & E)].
  - destruct Hneg as (p' & Hp' & H). rewrite Hp in Hp'. injection Hp' as <-. lia.
  - exfalso. exact (Hnd (Hdecl Ht)).
  - exists log, sub, tail. rewrite E, Hp. unfold with_defaults.
    destruct (Z.eqb_spec (MinBackoff p) 0); [lia | reflexivity].
Qed.

End RegistrationMore.

Lemma failed_registration_subscribes_nothing_witness :
  manager (mkWorld (T := string) (manager (registering_world false))
             [EvLogFatal "unregistered/unknown subscription on topic orders: ghost"])
  = manager (registering_world false) /\
  (events (mkWorld (manager (registering_world false))
             [EvLogFatal "unregistered/unknown subscription on topic orders: ghost"])
   = events (registering_world false) \/
   exists text,
     events (mkWorld (manager (registering_world false))
               [EvLogFatal "unregistered/unknown subscription on topic orders: ghost"])
     = (events (registering_world false) ++ [EvLogFatal text])%list).
Proof.
  apply (failed_registration_subscribes_nothing sample_topic "ghost"
           (mkSubscriptionConfig (fun _ : string => Returns None) None)
           (registering_world false)
           (mkWorld (manager (registering_world false))
              [EvLogFatal "unregistered/unknown subscription on topic orders: ghost"])
           (Exited 1)).
  - vm_compute. reflexivity.
  - exact I.
Defined.

Lemma registration_repeats_witness :
  exists evs : list (Event string),
    events (mkWorld (manager (registering_world true))
              [EvSubscribe (mkLogger "shop" "orders" "mailer")
                 (mkRetryPolicy 10000000000 600000000000 100)
                 (mkPubsubSubscription "mailer")])
    = (events (registering_world true) ++ evs)%list /\
    NewSubscription sample_topic "mailer"
      (mkSubscriptionConfig (fun _ : string => Returns None) None)
      (mkWorld (manager (registering_world true))
         [EvSubscribe (mkLogger "shop" "orders" "mailer")
            (mkRetryPolicy 10000000000 600000000000 100)
            (mkPubsubSubscription "mailer")])
    = (mkWorld (manager (registering_world true))
         (events (mkWorld (manager (registering_world true))
                    [EvSubscribe (mkLogger "shop" "orders" "mailer")
                       (mkRetryPolicy 10000000000 600000000000 100)
                       (mkPubsubSubscription "mailer")]) ++ evs),
       Ok (mkSubscription Ref)).
Proof.
  apply (registration_repeats sample_topic "mailer"
           (mkSubscriptionConfig (fun _ : string => Returns None) None)
           (registering_world true)).
  vm_compute. reflexivity.
Defined.

Lemma registration_under_test_witness :
  NewSubscription sample_topic ""
    (mkSubscriptionConfig (fun _ : string => Returns None) None)
    (registering_world true)
  = (mkWorld (manager (registering_world true))
       (events (registering_world true) ++
        [EvSubscribe
           (mkLogger (TestService (static (cfg (manager (registering_world true)))))
              "orders" "")
           (mkRetryPolicy (10 * Second) (10 * Minute) 100)
           (mkPubsubSubscription "")]),
     Ok (mkSubscription Ref)).
Proof.
  apply (registration_under_test sample_topic
           (mkPubsubTopic "orders" {[ "mailer" := mkPubsubSubscription "mailer" ]})
           ""
           (mkSubscriptionConfig (fun _ : string => Returns None) None)
           (registering_world true)).
  - reflexivity.
  - reflexivity.
  - reflexivity.
  - intros (p & Hp & _). discriminate.
  - reflexivity.
Defined.

Lemma registration_of_declared_witness :
  NewSubscription sample_topic "mailer"
    (mkSubscriptionConfig (fun _ : string => Returns None)
       (Some (mkRetryPolicy 0 (30 * Second) 5)))
    (registering_world false)
  = (mkWorld (manager (registering_world false))
       (events (registering_world false) ++
        [EvSubscribe (mkLogger "shop" "orders" "mailer")
           (with_defaults (mkRetryPolicy 0 (30 * Second) 5))
           (mkPubsubSubscription "mailer");
         EvLogInfo (mkLogger "shop" "orders" "mailer") "registered subscription"]),
     Ok (mkSubscription Ref)).
Proof.
  apply (registration_of_declared sample_topic
           (mkPubsubTopic "orders" {[ "mailer" := mkPubsubSubscription "mailer" ]})
           "mailer"
           (mkSubscriptionConfig (fun _ : string => Returns None)
              (Some (mkRetryPolicy 0 (30 * Second) 5)))
           (registering_world false)
           (mkPubsubSubscription "mailer")
           (mkStaticPubsubTopic {[ "mailer" := mkStaticPubsubSubscription "shop" 7 ]})
           (mkStaticPubsubSubscription "shop" 7)).
  - reflexivity.
  - reflexivity.
  - reflexivity.
  - intros (p & Hp & [H | H]); injection Hp as <-; vm_compute in H; discriminate.
  - reflexivity.
  - vm_compute. reflexivity.
  - vm_compute. reflexivity.
  - vm_compute. reflexivity.
Defined.

Lemma registration_of_undeclared_exits_witness :
  NewSubscription sample_topic "ghost"
    (mkSubscriptionConfig (fun _ : string => Returns None) None)
    (registering_world false)
  = (mkWorld (manager (registering_world false))
       (events (registering_world false) ++
        [EvLogFatal ("unregistered/unknown subscription on topic "
                     ++ "orders" ++ ": " ++ "ghost")]),
     Exited 1).
Proof.
  apply (registration_of_undeclared_exits sample_topic
           (mkPubsubTopic "orders" {[ "mailer" := mkPubsubSubscription "mailer" ]})
           "ghost"
           (mkSubscriptionConfig (fun _ : string => Returns None) None)
           (registering_world false)).
  - reflexivity.
  - reflexivity.
  - reflexivity.
  - intros (p & Hp & _). discriminate.
  - reflexivity.
  - left. vm_compute. reflexivity.
Defined.

Lemma registration_check_order_witness :
  NewSubscription (mkTopic None Ref Ref) "mailer"
    (mkSubscriptionConfig (fun _ : string => Returns None)
       (Some (mkRetryPolicy (-1) (-1) 0)))
    (registering_world false)
  = (registering_world false,
     Panicked "pubsub topic was not created using pubsub.NewTopic") /\
  NewSubscription sample_topic "mailer"
    (mkSubscriptionConfig (fun _ : string => Returns None)
       (Some (mkRetryPolicy (-1) (-1) 0)))
    (registering_world false)
  = (registering_world false, Panicked "MinRetryDelay cannot be negative").
Proof.
  split.
  - apply (registration_check_order (mkTopic None Ref Ref) "mailer"
             (mkSubscriptionConfig (fun _ : string => Returns None)
                (Some (mkRetryPolicy (-1) (-1) 0)))
             (registering_world false)).
    intros (H & _). apply H. reflexivity.
  - apply (registration_check_order sample_topic "mailer"
             (mkSubscriptionConfig (fun _ : string => Returns None)
                (Some (mkRetryPolicy (-1) (-1) 0)))
             (registering_world false)) with (p := mkRetryPolicy (-1) (-1) 0).
    + repeat split. discriminate.
    + reflexivity.
    + simpl. lia.
Defined.

Lemma registration_accepts_max_below_min_witness :
  exists log sub tail,
    NewSubscription sample_topic "mailer"
      (mkSubscriptionConfig (fun _ : string => Returns None)
         (Some (mkRetryPolicy (20 * Minute) 0 3)))
      (registering_world true)
    = (mkWorld (manager (registering_world true))
         (events (registering_world true) ++
          EvSubscribe log (mkRetryPolicy (20 * Minute) (10 * Minute) 3) sub :: tail),
       Ok (mkSubscription Ref)).
Proof.
  apply (registration_accepts_max_below_min sample_topic
           (mkPubsubTopic "orders" {[ "mailer" := mkPubsubSubscription "mailer" ]})
           "mailer"
           (mkSubscriptionConfig (fun _ : string => Returns None)
              (Some (mkRetryPolicy (20 * Minute) 0 3)))
           (registering_world true) (mkRetryPolicy (20 * Minute) 0 3)).
  - reflexivity.
  - reflexivity.
  - reflexivity.
  - intros H. discriminate H.
  - reflexivity.
  - simpl. lia.
  - vm_compute. reflexivity.
Defined.

(** ** Shutdown *)

Section ShutdownMore.

Context {T : Type}.

(** X16: [Shutdown] on a manager that holds a tracker (one reached from
    a fresh tracker) cancels the context, arms the tracker without
    touching its counter, makes no call to a collaborator and reaches
    its [select].  There the drain case can proceed exactly when no
    delivery was in flight or [done] was closed already, and the
    deadline case exactly when [force] is done; with deliveries in
    flight and [force] not done, no case can and the call blocks. *)
Theorem Shutdown_reaches_select :
  forall (force : chan) (w : World T) (t : outstandingMessageTracker),
    outstanding (manager w) = Some t -> tracked t ->
    exists (t' : outstandingMessageTracker) (ready : list wake),
      Shutdown force w
      = (mkWorld (mkManager true (cfg (manager w)) (rt (manager w)) (Some t'))
           (events w), Ok ready) /\
      armed t' = true /\ active t' = active t /\
      (In ByDone ready <-> active t = 0 \/ Done t = ChanClosed) /\
      (In ByForce ready <-> force = ChanClosed) /\
      (ready = [] <-> active t <> 0 /\ Done t = ChanOpen /\ force = ChanOpen).
Proof.
  intros force w t Ho Ht. destruct (tracked_valid t Ht) as [Hwf _].
  destruct (ArmForShutdown_wf t Hwf) as (t' & E & _ & Ar & Ac & Cl & Op & _).
  exists t', (select_ready (Done t') force). split.
  - unfold Shutdown, bind, cancelCtx, modify, on_outstanding, ret. simpl.
    rewrite Ho, E. reflexivity.
  - split; [exact Ar |]. split; [exact Ac |].
    unfold select_ready, Done.
    destruct (Z.eq_dec (active t) 0) as [Hz | Hz].
    + rewrite (Cl Hz). destruct force; simpl; intuition (try discriminate; auto).
    + rewrite (Op Hz). destruct (done t), force; simpl;
        intuition (try discriminate; auto).
Qed.

(** X17: [Shutdown] can be called again: on the store a first call
    left, a second call with the same [force] changes nothing and finds
    the same cases ready. *)
Theorem Shutdown_twice :
  forall (force : chan) (w w1 : World T) (t : outstandingMessageTracker)
         (ready : list wake),
    outstanding (manager w) = Some t -> tracked t ->
    Shutdown force w = (w1, Ok ready) ->
    Shutdown force w1 = (w1, Ok ready).
Proof.
  intros force w w1 t ready Ho Ht E. destruct (tracked_valid t Ht) as [Hwf _].
  destruct (ArmForShutdown_wf t Hwf) as (t' & Ea & W & Ar & Ac & Cl & _).
  assert (E1 : Shutdown force w
     = (mkWorld (mkManager true (cfg (manager w)) (rt (manager w)) (Some t'))
          (events w), Ok (select_ready (Done t') force))).
  { unfold Shutdown, bind, cancelCtx, modify, on_outstanding, ret. simpl.
    rewrite Ho, Ea. reflexivity. }
  rewrite E1 in E. injection E as <- <-.
  assert (Eb : ArmForShutdown t' = (t', Ok tt)).
  { apply ArmForShutdown_again; [exact W | exact Ar |].
    intros Hz. apply Cl. congruence. }
  unfold Shutdown, bind, cancelCtx, modify, on_outstanding, ret. simpl.
  rewrite Eb. reflexivity.
Qed.

End ShutdownMore.

Lemma Shutdown_reaches_select_witness :
  exists (t' : outstandingMessageTracker) (ready : list wake),
    Shutdown ChanOpen (sample_world false (Some newOutstandingMessageTracker))
    = (mkWorld
         (mkManager true
            (cfg (manager (sample_world false (Some newOutstandingMessageTracker))))
            (rt (manager (sample_world false (Some newOutstandingMessageTracker))))
            (Some t'))
         (events (sample_world false (Some newOutstandingMessageTracker))),
       Ok ready) /\
    armed t' = true /\ active t' = active newOutstandingMessageTracker /\
    (In ByDone ready <->
     active newOutstandingMessageTracker = 0 \/
     Done newOutstandingMessageTracker = ChanClosed) /\
    (In ByForce ready <-> ChanOpen = ChanClosed) /\
    (ready = [] <->
     active newOutstandingMessageTracker <> 0 /\
     Done newOutstandingMessageTracker = ChanOpen /\ ChanOpen = ChanOpen).
Proof.
  apply (Shutdown_reaches_select ChanOpen
           (sample_world false (Some newOutstandingMessageTracker))
           newOutstandingMessageTracker).
  - reflexivity.
  - exists [], 0%nat, 0%nat. split; [unfold int64_max; simpl; lia | reflexivity].
Defined.

Lemma Shutdown_twice_witness :
  Shutdown ChanOpen
    (mkWorld (mkManager true (mkConfig (mkStatic false "shop" ∅) false)
                (mkRequestTracker true)
                (Some (mkTracker 0 true ChanClosed true))) [])
  = (mkWorld (T := string)
       (mkManager true (mkConfig (mkStatic false "shop" ∅) false)
          (mkRequestTracker true)
          (Some (mkTracker 0 true ChanClosed true))) [],
     Ok [ByDone]).
Proof.
  apply (Shutdown_twice ChanOpen
           (sample_world false (Some newOutstandingMessageTracker)) _
           newOutstandingMessageTracker [ByDone]).
  - reflexivity.
  - exists [], 0%nat, 0%nat. split; [unfold int64_max; simpl; lia | reflexivity].
  - reflexivity.
Defined.
